(** * Salon dashboard: slot availability, booking ledger and table queries

    A shallow embedding of the scheduling code of [app.py] and
    [utils/booking_tab.py] and of the table queries of [query.py], with the
    properties the specification states about them.

    Conventions of the embedding.
    - A Python call that may raise returns a [res]: [Ok v] or [Raise e].
    - A calendar date is its day number (days since 1970-01-01); [None] in a
      date column is pandas' [NaT].  Time of day is not kept; where a
      function compares a date with the current moment, the time of day of
      the moment is an argument of its own.
    - A missing cell ([NaN]) of a numeric or text column is [None].
    - [float] values are exact rationals ([Q]); rounding error of binary
      floating point is outside the model.
    - [int(s)] and the other string primitives are modelled on ASCII text. *)

From Stdlib Require Import ZArith List Bool Lia.
From Stdlib Require Import Strings.String Strings.Ascii Numbers.DecimalString.
From Stdlib Require Import DecimalPos.
From Stdlib Require Import QArith Qround Qabs Lqa.
Import ListNotations.

Open Scope string_scope.
Open Scope Z_scope.

(** ** Exceptions *)

Inductive exn : Set := AttributeError | KeyError | ValueError | TypeError.

Inductive res (A : Type) : Type :=
| Ok (a : A)
| Raise (e : exn).

Arguments Ok {A} a.
Arguments Raise {A} e.

Definition bind {A B : Type} (c : res A) (k : A -> res B) : res B :=
  match c with
  | Ok a => k a
  | Raise e => Raise e
  end.

Notation "x <- c ;; k" := (bind c (fun x => k))
  (at level 61, c at next level, right associativity).
Notation "' pat <- c ;; k" := (bind c (fun x => match x with pat => k end))
  (at level 61, pat pattern, c at next level, right associativity).

Definition returns {A : Type} (c : res A) : bool :=
  match c with Ok _ => true | Raise _ => false end.

(** ** Python string primitives *)

Module Py.

(** ASCII white space, as [str.strip] and [int] see it. *)
Definition is_space (c : ascii) : bool :=
  let n := nat_of_ascii c in
  ((9 <=? n) && (n <=? 13) || (28 <=? n) && (n <=? 32))%nat.

Fixpoint lstrip (s : string) : string :=
  match s with
  | String c s' => if is_space c then lstrip s' else s
  | EmptyString => EmptyString
  end.

Fixpoint rstrip (s : string) : string :=
  match s with
  | String c s' =>
      match rstrip s' with
      | EmptyString => if is_space c then EmptyString else String c EmptyString
      | t => String c t
      end
  | EmptyString => EmptyString
  end.

Definition strip (s : string) : string := rstrip (lstrip s).

Definition digit_val (c : ascii) : option Z :=
  let n := nat_of_ascii c in
  if ((48 <=? n) && (n <=? 57))%nat then Some (Z.of_nat (n - 48)) else None.

(** Digits of a decimal literal after the first one; a single underscore may
    sit between two digits. *)
Fixpoint more_digits (acc : Z) (after_underscore : bool) (s : string) : option Z :=
  match s with
  | EmptyString => if after_underscore then None else Some acc
  | String c s' =>
      if Ascii.eqb c "_"
      then if after_underscore then None else more_digits acc true s'
      else match digit_val c with
           | Some d => more_digits (10 * acc + d) false s'
           | None => None
           end
  end.

Definition unsigned_literal (s : string) : option Z :=
  match s with
  | String c s' =>
      match digit_val c with
      | Some d => more_digits d false s'
      | None => None
      end
  | EmptyString => None
  end.

(** [int(s)] for a [str]: surrounding white space, an optional sign, decimal
    digits.  Anything else is a [ValueError]. *)
Definition int (s : string) : res Z :=
  let body :=
    match strip s with
    | String "-" t => option_map Z.opp (unsigned_literal t)
    | String "+" t => unsigned_literal t
    | t => unsigned_literal t
    end in
  match body with
  | Some z => Ok z
  | None => Raise ValueError
  end.

(** [str(n)] and [f"{n}"] for an [int]. *)
Definition str (z : Z) : string := NilZero.string_of_int (Z.to_int z).

(** [f"{n:02d}"] for [0 <= n]. *)
Definition fmt02d (z : Z) : string :=
  if z <? 10 then "0" ++ str z else str z.

(** [s.split(":")]. *)
Fixpoint split_colon (s : string) : list string :=
  match s with
  | EmptyString => [EmptyString]
  | String c s' =>
      if Ascii.eqb c ":" then EmptyString :: split_colon s'
      else match split_colon s' with
           | x :: xs => String c x :: xs
           | [] => [String c EmptyString]
           end
  end.

(** [s.replace("APT", "")]: every occurrence, left to right. *)
Fixpoint replace_APT (s : string) : string :=
  match s with
  | String "A" (String "P" (String "T" rest)) => replace_APT rest
  | String c rest => String c (replace_APT rest)
  | EmptyString => EmptyString
  end.

Definition startswith (s p : string) : bool := prefix p s.

(** [h, m = map(int, s.split(":"))]: exactly two fields, both integers;
    every failure is a [ValueError]. *)
Definition hour_minute (s : string) : res (Z * Z) :=
  match split_colon s with
  | [a; b] => h <- int a ;; m <- int b ;; Ok (h, m)
  | _ => Raise ValueError
  end.

(** [max] of the integers a generator yields; the generator raises where an
    element does, and [max] of nothing is a [ValueError]. *)
Fixpoint collect {A : Type} (l : list (res A)) : res (list A) :=
  match l with
  | [] => Ok []
  | c :: l' => a <- c ;; t <- collect l' ;; Ok (a :: t)
  end.

Definition max_int (l : list Z) : res Z :=
  match l with
  | [] => Raise ValueError
  | z :: l' => Ok (fold_left Z.max l' z)
  end.

(** [max] of strings: the order is the lexicographic one on characters. *)
Definition max_str (l : list string) : option string :=
  match l with
  | [] => None
  | s :: l' => Some (fold_left (fun m t => if String.ltb m t then t else m) l' s)
  end.

(** [range(a, b)]. *)
Definition range (a b : Z) : list Z :=
  map (fun i => a + Z.of_nat i) (seq 0 (Z.to_nat (b - a))).

End Py.

(** ** The appointment table

    The columns of [appointments.csv] that the booking code reads.  The
    time slot is kept as the text of the cell ([str(row["Time Slot"])]), the
    duration as the integer of the cell or [None] where the cell is empty. *)

Record Appointment : Type := mkAppointment {
  appointment_id : string;
  preferred_employee : string;
  appointment_date : option Z;
  time_slot : string;
  duration : option Z;
  status : string
}.

Definition same_date (cell : option Z) (date : Z) : bool :=
  match cell with
  | Some d => d =? date
  | None => false
  end.

(** [Status.isin(["Confirmed", "Pending"])] *)
Definition confirmed_or_pending (s : string) : bool :=
  String.eqb s "Confirmed" || String.eqb s "Pending".

(** Truth value of the optional [exclude_id] argument: [None] and the empty
    string are both false. *)
Definition given (exclude_id : option string) : option string :=
  match exclude_id with
  | Some EmptyString => None
  | other => other
  end.

(** [int(cell)] of a numeric cell: an empty cell is [NaN], which [int]
    refuses. *)
Definition int_of_cell (c : option Z) : res Z :=
  match c with
  | Some z => Ok z
  | None => Raise ValueError
  end.

(** The first filter of [check_overlap], shared by both versions. *)
Definition select_rows (rows : list Appointment) (employee : string) (date : Z)
    (exclude_id : option string) : list Appointment :=
  let filtered :=
    filter (fun r => String.eqb (preferred_employee r) employee
                     && same_date (appointment_date r) date
                     && confirmed_or_pending (status r)) rows in
  match given exclude_id with
  | Some x => filter (fun r => negb (String.eqb (appointment_id r) x)) filtered
  | None => filtered
  end.

(** The business day of [get_available_slots]: [range(9, 20)] by [[0, 30]]. *)
Definition slot_labels : list string :=
  flat_map (fun hour => map (fun minute => Py.fmt02d hour ++ ":" ++ Py.fmt02d minute) [0; 30])
           (Py.range 9 20).

(** *** [app.py] *)

Module App.

(** The loop over the filtered rows. *)
Fixpoint scan_rows (req_start req_end : Z) (rows : list Appointment) : res bool :=
  match rows with
  | [] => Ok false
  | row :: rest =>
      match Py.hour_minute (time_slot row) with
      | Raise _ => scan_rows req_start req_end rest
      | Ok (exist_h, exist_m) =>
          let exist_start := exist_h * 60 + exist_m in
          d <- int_of_cell (duration row) ;;
          let exist_end := exist_start + d in
          if (req_start <? exist_end) && (req_end >? exist_start)
          then Ok true
          else scan_rows req_start req_end rest
      end
  end.

Definition check_overlap (appts : option (list Appointment)) (employee : string)
    (date : Z) (time_slot : string) (duration : Z) (exclude_id : option string)
    : res bool :=
  match appts with
  | None | Some [] => Ok false
  | Some rows =>
      match select_rows rows employee date exclude_id with
      | [] => Ok false
      | filtered =>
          '(req_h, req_m) <- Py.hour_minute time_slot ;;
          let req_start := req_h * 60 + req_m in
          let req_end := req_start + duration in
          scan_rows req_start req_end filtered
      end
  end.

Fixpoint collect_free (appointments_df : option (list Appointment))
    (employee : string) (date : Z) (duration : Z) (slots : list string)
    : res (list string) :=
  match slots with
  | [] => Ok []
  | slot :: rest =>
      busy <- check_overlap appointments_df employee date slot duration None ;;
      later <- collect_free appointments_df employee date duration rest ;;
      Ok (if busy then later else slot :: later)
  end.

Definition get_available_slots (appointments_df : option (list Appointment))
    (employee : string) (date : Z) (duration : Z) : res (list string) :=
  collect_free appointments_df employee date duration slot_labels.

(** The identifier [save_booking] gives the new row. *)
Definition new_id (ap : list Appointment) : string :=
  match ap with
  | [] => "APT1000"
  | _ =>
      let ids := filter (fun x => Py.startswith x "APT") (map appointment_id ap) in
      match (nums <- Py.collect (map (fun x => Py.int (Py.replace_APT x)) ids) ;;
             Py.max_int nums) with
      | Ok last_id => "APT" ++ Py.str (last_id + 1)
      | Raise _ => "APT1000"
      end
  end.

(** [save_booking]: the identifier and the table handed to [save_csv]. *)
Definition save_booking (appointments_df : option (list Appointment))
    (data : Appointment) : string * list Appointment :=
  let ap := match appointments_df with Some rows => rows | None => [] end in
  let id := new_id ap in
  let new_row := mkAppointment id (preferred_employee data) (appointment_date data)
                   (time_slot data) (duration data) (status data) in
  (id, (ap ++ [new_row])%list).

End App.

(** *** [utils/booking_tab.py]

    The table is the one [load_appointments] returns; it is passed in. *)

Module BookingTab.

Fixpoint scan_rows (req_start req_end : Z) (rows : list Appointment) : res bool :=
  match rows with
  | [] => Ok false
  | row :: rest =>
      '(exist_hour, exist_min) <- Py.hour_minute (time_slot row) ;;
      let exist_start := exist_hour * 60 + exist_min in
      d <- int_of_cell (duration row) ;;
      let exist_end := exist_start + d in
      if (req_start <? exist_end) && (req_end >? exist_start)
      then Ok true
      else scan_rows req_start req_end rest
  end.

Definition check_overlap (df : list Appointment) (employee : string) (date : Z)
    (time_slot : string) (duration : Z) (exclude_id : option string) : res bool :=
  match select_rows df employee date exclude_id with
  | [] => Ok false
  | df_filtered =>
      '(req_hour, req_min) <- Py.hour_minute time_slot ;;
      let req_start := req_hour * 60 + req_min in
      let req_end := req_start + duration in
      scan_rows req_start req_end df_filtered
  end.

Fixpoint collect_free (df : list Appointment) (employee : string) (date : Z)
    (duration : Z) (slots : list string) : res (list string) :=
  match slots with
  | [] => Ok []
  | slot :: rest =>
      busy <- check_overlap df employee date slot duration None ;;
      later <- collect_free df employee date duration rest ;;
      Ok (if busy then later else slot :: later)
  end.

Definition get_available_slots (df : list Appointment) (employee : string)
    (date : Z) (duration : Z) : res (list string) :=
  collect_free df employee date duration slot_labels.

Definition new_id (df : list Appointment) : res string :=
  match Py.max_str (map (fun r => Py.replace_APT (appointment_id r)) df) with
  | None => Ok "APT1000"
  | Some m => last_id <- Py.int m ;; Ok ("APT" ++ Py.str (last_id + 1))
  end.

Definition save_booking (df : list Appointment) (data : Appointment)
    : res (string * list Appointment) :=
  id <- new_id df ;;
  let new_row := mkAppointment id (preferred_employee data) (appointment_date data)
                   (time_slot data) (duration data) (status data) in
  Ok (id, (df ++ [new_row])%list).

End BookingTab.


(** ** Tables of [query.py]

    A data frame is its list of column names and its rows; a row is a record
    of the cells the queries read.  A cell of a column the frame does not
    have is never read: every access goes through [column], which raises
    [KeyError] as [df[name]] does. *)

Record DataFrame (R : Type) : Type := mkDataFrame {
  columns : list string;
  rows : list R
}.

Arguments mkDataFrame {R} columns rows.
Arguments columns {R} d.
Arguments rows {R} d.

Definition has_column {R : Type} (df : DataFrame R) (name : string) : bool :=
  existsb (String.eqb name) (columns df).

(** [df.empty] *)
Definition empty {R : Type} (df : DataFrame R) : bool :=
  match columns df, rows df with
  | [], _ | _, [] => true
  | _, _ => false
  end.

(** [df.loc[mask, name]]: the cells of a column on the rows a mask keeps. *)
Definition column {R A : Type} (df : DataFrame R) (name : string)
    (cell : R -> A) (mask : R -> bool) : res (list A) :=
  if has_column df name then Ok (map cell (filter mask (rows df)))
  else Raise KeyError.

(** [Series.dropna()] *)
Fixpoint dropna {A : Type} (l : list (option A)) : list A :=
  match l with
  | [] => []
  | Some a :: l' => a :: dropna l'
  | None :: l' => dropna l'
  end.

(** Sorted list of the distinct elements, as [groupby] orders its keys. *)
Fixpoint insert_key {A : Type} (ltb : A -> A -> bool) (x : A) (l : list A) : list A :=
  match l with
  | [] => [x]
  | y :: t =>
      if ltb x y then x :: l
      else if ltb y x then y :: insert_key ltb x t
      else l
  end.

Definition sorted_keys {A : Type} (ltb : A -> A -> bool) (l : list A) : list A :=
  fold_right (insert_key ltb) [] l.

(** *** Calendar *)

Module Calendar.

(** Day number of a proleptic Gregorian date. *)
Definition days_from_civil (y m d : Z) : Z :=
  let y := if m <=? 2 then y - 1 else y in
  let era := y / 400 in
  let yoe := y - era * 400 in
  let doy := (153 * (if 2 <? m then m - 3 else m + 9) + 2) / 5 + d - 1 in
  let doe := yoe * 365 + yoe / 4 - yoe / 100 + doy in
  era * 146097 + doe - 719468.

(** Year, month and day of the month of a day number. *)
Definition civil_from_days (z : Z) : Z * Z * Z :=
  let z := z + 719468 in
  let era := z / 146097 in
  let doe := z - era * 146097 in
  let yoe := (doe - doe / 1460 + doe / 36524 - doe / 146096) / 365 in
  let doy := doe - (365 * yoe + yoe / 4 - yoe / 100) in
  let mp := (5 * doy + 2) / 153 in
  let d := doy - (153 * mp + 2) / 5 + 1 in
  let m := if mp <? 10 then mp + 3 else mp - 9 in
  (if m <=? 2 then yoe + era * 400 + 1 else yoe + era * 400, m, d).

Definition year (z : Z) : Z := fst (fst (civil_from_days z)).
Definition month (z : Z) : Z := snd (fst (civil_from_days z)).
Definition day (z : Z) : Z := snd (civil_from_days z).

(** Monday is 1, Sunday is 7. *)
Definition isoweekday (z : Z) : Z := (z + 3) mod 7 + 1.

(** [isocalendar().week]: the week of the year that holds the Thursday of
    the date's week. *)
Definition isoweek (z : Z) : Z :=
  let thursday := z - (isoweekday z - 1) + 3 in
  (thursday - days_from_civil (year thursday) 1 1) / 7 + 1.

End Calendar.

(** *** Service transactions

    The frame [preprocess_data] hands the home-page queries: [Timestamp] is
    a datetime column, [Bill Amount] a numeric one. *)

Record Sale : Type := mkSale {
  Timestamp : option Z;
  Phone_Number : option string;
  Bill_Amount : option Q
}.

(** [Series.sum(min_count=1)]: missing values are skipped; with no value
    left the sum is [NaN]. *)
Definition sum_min_count_1 (cells : list (option Q)) : option Q :=
  match dropna cells with
  | [] => None
  | values => Some (fold_left Qplus values 0%Q)
  end.

(** [float(total) if pd.notna(total) else 0.0] *)
Definition float_or_zero (total : option Q) : Q :=
  match total with
  | Some t => Qred t
  | None => 0%Q
  end.

(** A comparison on a datetime cell; [NaT] compares false. *)
Definition at_time (p : Z -> bool) (cell : option Z) : bool :=
  match cell with
  | Some t => p t
  | None => false
  end.

(** The body the five period sums share, after the mask is computed. *)
Definition sum_where (df : option (DataFrame Sale)) (mask : Z -> bool) : res Q :=
  match df with
  | None => Ok 0%Q
  | Some df =>
      if empty df || negb (has_column df "Timestamp") then Ok 0%Q
      else
        cells <- column df "Bill Amount" Bill_Amount (fun r => at_time mask (Timestamp r)) ;;
        Ok (float_or_zero (sum_min_count_1 cells))
  end.

Definition today_sales (df : option (DataFrame Sale)) (now : Z) : res Q :=
  let today := now in
  sum_where df (fun t => t =? today).

Definition weekly_service_sales (df : option (DataFrame Sale)) (now : Z) : res Q :=
  let cw := Calendar.isoweek now in
  let cy := Calendar.year now in
  sum_where df (fun t => (Calendar.isoweek t =? cw) && (Calendar.year t =? cy)).

Definition monthly_service_sales (df : option (DataFrame Sale)) (now : Z) : res Q :=
  let m := Calendar.month now in
  let y := Calendar.year now in
  sum_where df (fun t => (Calendar.month t =? m) && (Calendar.year t =? y)).

Definition prev_week_service_sales (df : option (DataFrame Sale)) (now : Z) : res Q :=
  let prev := now - 7 in
  let prev_w := Calendar.isoweek prev in
  let prev_y := Calendar.year prev in
  sum_where df (fun t => (Calendar.isoweek t =? prev_w) && (Calendar.year t =? prev_y)).

Definition prev_month_service_sales (df : option (DataFrame Sale)) (now : Z) : res Q :=
  let first_this_month := now - (Calendar.day now - 1) in
  let last_prev_month := first_this_month - 1 in
  let pm := Calendar.month last_prev_month in
  let py := Calendar.year last_prev_month in
  sum_where df (fun t => (Calendar.month t =? pm) && (Calendar.year t =? py)).

(** [Series.astype(str)] on a text column: a missing cell reads ["nan"]. *)
Definition astype_str (cell : option string) : string :=
  match cell with
  | Some s => s
  | None => "nan"
  end.

Definition isin (s : string) (l : list string) : bool :=
  existsb (String.eqb s) l.

(** [Series.unique()]: first occurrences, in order. *)
Fixpoint unique (l : list string) : list string :=
  match l with
  | [] => []
  | s :: l' => s :: filter (fun t => negb (String.eqb t s)) (unique l')
  end.

Definition new_and_repeated_clients (df : option (DataFrame Sale)) (now : Z)
    : nat * nat :=
  match df with
  | None => (0%nat, 0%nat)
  | Some df =>
      if empty df || negb (has_column df "Timestamp") then (0%nat, 0%nat)
      else
        let today := now in
        let past := filter (fun r => at_time (fun t => t <? today) (Timestamp r)) (rows df) in
        let today_df := filter (fun r => at_time (fun t => t =? today) (Timestamp r)) (rows df) in
        if negb (has_column df "Phone Number") then (0%nat, 0%nat)
        else
          let past_phones := unique (dropna (map Phone_Number past)) in
          let new_clients :=
            filter (fun r => negb (isin (astype_str (Phone_Number r)) past_phones)) today_df in
          let repeated :=
            filter (fun r => isin (astype_str (Phone_Number r)) past_phones) today_df in
          (List.length new_clients, List.length repeated)
  end.

(** *** Attendance *)

Record Attendance : Type := mkAttendance {
  Staff_Name : option string;
  Date : option Z;
  Status : option string
}.

Record AttendanceStats : Type := mkAttendanceStats {
  staff : string;
  total_days : Z;
  present_days : Z;
  attendance_pct : option Q
}.

(** Rounding to the nearest integer, ties to the even one. *)
Definition round_half_even (q : Q) : Z :=
  let f := Qfloor q in
  match Qcompare (q - inject_Z f) (1 # 2) with
  | Lt => f
  | Gt => f + 1
  | Eq => if Z.even f then f else f + 1
  end.

(** [round(x, 2)] on a series of floats. *)
Definition round2 (q : Q) : Q := Qred (inject_Z (round_half_even (q * 100)) / 100).

(** [present_days / total_days * 100], rounded; [0 / 0] is [NaN]. *)
Definition percentage (present total : Z) : option Q :=
  if total =? 0 then None
  else Some (round2 (inject_Z present / inject_Z total * 100)).

(** [Series.count()]: the cells that are not missing. *)
Definition count {A : Type} (cells : list (option A)) : Z :=
  Z.of_nat (List.length (dropna cells)).

(** [(x == "Present").sum()] *)
Definition count_present (cells : list (option string)) : Z :=
  Z.of_nat (List.length (filter (fun c => match c with
                                          | Some s => String.eqb s "Present"
                                          | None => false
                                          end) cells)).

Definition in_group (name : string) (r : Attendance) : bool :=
  match Staff_Name r with
  | Some s => String.eqb s name
  | None => false
  end.

Definition get_staff_attendance_stats (df : option (DataFrame Attendance))
    : res (list AttendanceStats) :=
  match df with
  | None => Raise AttributeError
  | Some df2 =>
      _ <- column df2 "Date" Date (fun _ => true) ;;
      names <- column df2 "Staff Name" Staff_Name (fun _ => true) ;;
      _ <- column df2 "Status" Status (fun _ => true) ;;
      Ok (map (fun name =>
                 let group := map Status (filter (in_group name) (rows df2)) in
                 let total := count group in
                 let present := count_present group in
                 mkAttendanceStats name total present (percentage present total))
              (sorted_keys String.ltb (dropna names)))
  end.

(** *** Leave records

    [From_Date] and [To_Date] hold the date [safe_datetime_convert] gives the
    cell, [None] where it gives [NaT]. *)

Record Leave : Type := mkLeave {
  leave_staff : option string;
  From_Date : option Z;
  To_Date : option Z;
  leave_status : option string
}.

Definition approved (r : Leave) : bool :=
  match leave_status r with
  | Some s => String.eqb s "Approved"
  | None => false
  end.

(** [pd.date_range(a, b)]: every day from [a] to [b], both included. *)
Definition date_range (a b : Z) : list Z := Py.range a (b + 1).

(** [safe_datetime_convert(df, [name])]: the column, or [NaT] on every row
    where the frame has no such column. *)
Definition safe_datetime_convert (df : DataFrame Leave) (name : string)
    (cell : Leave -> option Z) (r : Leave) : option Z :=
  if has_column df name then cell r else None.

(** The loop that fills [leave_days]; an entry is the day and the staff
    name. *)
Definition leave_days (df : DataFrame Leave) (rows_approved : list Leave)
    : list (Z * option string) :=
  flat_map (fun row =>
              match safe_datetime_convert df "From Date" From_Date row,
                    safe_datetime_convert df "To Date" To_Date row with
              | Some a, Some b =>
                  map (fun d => (d, if has_column df "Staff Name"
                                    then leave_staff row else None))
                      (date_range a b)
              | _, _ => []
              end) rows_approved.

Definition count_day (d : Z) (days : list Z) : Z :=
  Z.of_nat (List.length (filter (Z.eqb d) days)).

(** The result frame is its list of rows [(date, leave_count)]; the empty
    frame is the empty list. *)
Definition get_leave_calendar_data (leave_df : option (DataFrame Leave))
    : res (list (Z * Z)) :=
  match leave_df with
  | None => Ok []
  | Some df =>
      if empty df then Ok []
      else if negb (has_column df "Status") then Raise KeyError
      else
        let days := map fst (leave_days df (filter approved (rows df))) in
        Ok (map (fun d => (d, count_day d days)) (sorted_keys Z.ltb days))
  end.

(** The per-day count read off the result; a day without a row counts 0. *)
Definition leave_count (result : list (Z * Z)) (d : Z) : Z :=
  match find (fun row => fst row =? d) result with
  | Some row => snd row
  | None => 0
  end.


(** ** Further code of the repository *)

(** [cancel_booking] of [utils/booking_tab.py]: the status of every row with
    the identifier becomes [Cancelled]; the result is the table written
    back. *)
Definition with_status (s : string) (r : Appointment) : Appointment :=
  mkAppointment (appointment_id r) (preferred_employee r) (appointment_date r)
                (time_slot r) (duration r) s.

Definition cancel_booking (df : list Appointment) (id : string) : list Appointment :=
  map (fun r => if String.eqb (appointment_id r) id
                then with_status "Cancelled" r else r) df.

(** *** Staff

    The columns of [staff.csv] that the staff queries read. *)

Record Staff : Type := mkStaff {
  staff_id : string;
  Joining_Date : option Z;
  staff_status : option string
}.

Record StaffKpis : Type := mkStaffKpis {
  total_staff : nat;
  active_staff : nat;
  on_leave_today : nat;
  new_this_month : nat
}.

(** [cell == s] on a text column; a missing cell compares false. *)
Definition status_is (s : string) (cell : option string) : bool :=
  match cell with
  | Some x => String.eqb x s
  | None => false
  end.

(** [safe_datetime_convert(df, [name])] on any frame. *)
Definition safe_datetime_cell {R : Type} (df : DataFrame R) (name : string)
    (cell : R -> option Z) (r : R) : option Z :=
  if has_column df name then cell r else None.

(** [date >= moment] for a date cell (midnight of its day) and a moment
    given by its day and its time of day in seconds. *)
Definition on_or_after (d : Z) (day time : Z) : bool :=
  (day <? d) || ((d =? day) && (time <=? 0)).

(** The leave records that hold [today], as the mask of [get_staff_kpis]
    selects them. *)
Definition on_leave_mask (ld : DataFrame Leave) (today : Z) (r : Leave) : bool :=
  at_time (fun a => a <=? today) (safe_datetime_convert ld "From Date" From_Date r)
  && at_time (fun b => b >=? today) (safe_datetime_convert ld "To Date" To_Date r)
  && (has_column ld "Status" && approved r).

(** [get_staff_kpis] of [query.py]; [now] is the day of the current moment,
    [now_time] its time of day in seconds. *)
Definition get_staff_kpis (staff_df : option (DataFrame Staff))
    (leave_df : option (DataFrame Leave)) (now now_time : Z) : res StaffKpis :=
  let staff_df := match staff_df with
                  | Some df => df
                  | None => mkDataFrame [] []
                  end in
  let total_staff := List.length (rows staff_df) in
  active_staff <-
    (if empty staff_df then Ok 0%nat
     else if has_column staff_df "Status"
          then Ok (List.length (filter (fun r => status_is "Active" (staff_status r))
                                       (rows staff_df)))
          else Raise KeyError) ;;
  let on_leave_today :=
    match leave_df with
    | None => 0%nat
    | Some ld =>
        if empty ld then 0%nat
        else
          let today := now in
          if has_column ld "Staff Name"
          then List.length (unique (dropna (map leave_staff
                                      (filter (on_leave_mask ld today) (rows ld)))))
          else 0%nat
    end in
  let new_this_month :=
    if empty staff_df then 0%nat
    else
      let first_day := now - (Calendar.day now - 1) in
      List.length
        (filter (fun r => at_time (fun j => on_or_after j first_day now_time)
                            (safe_datetime_cell staff_df "Joining Date" Joining_Date r))
                (rows staff_df)) in
  Ok (mkStaffKpis total_staff active_staff on_leave_today new_this_month).

(** [utils/staff_management_tab.py], on the frames [load_staff] and
    [load_leave_records] read from their files. *)
Module StaffTab.

Definition get_staff_kpis (staff_df : list Staff) (leave_df : list Leave) (now : Z)
    : StaffKpis :=
  let today := now in
  let total_staff := List.length staff_df in
  let active_staff :=
    List.length (filter (fun r => status_is "Active" (staff_status r)) staff_df) in
  let on_leave_today :=
    List.length (filter (fun r => at_time (fun a => a <=? today) (From_Date r)
                                  && at_time (fun b => b >=? today) (To_Date r)
                                  && approved r) leave_df) in
  let this_month := today - (Calendar.day today - 1) in
  let new_this_month :=
    List.length (filter (fun r => at_time (fun j => j >=? this_month) (Joining_Date r))
                        staff_df) in
  mkStaffKpis total_staff active_staff on_leave_today new_this_month.


End StaffTab.

(** *** Booking figures of [query.py]

    The appointment frame as [app.py] hands it over: [Appointment Date] is a
    datetime column. *)

Record BookingKpis : Type := mkBookingKpis {
  total_today : nat;
  confirmed_today : nat;
  pending : nat;
  this_week : nat
}.

Definition get_booking_kpis (df : option (DataFrame Appointment)) (now : Z)
    : BookingKpis :=
  match df with
  | None => mkBookingKpis 0 0 0 0
  | Some df =>
      if empty df then mkBookingKpis 0 0 0 0
      else
        let date r := safe_datetime_cell df "Appointment Date" appointment_date r in
        let today := now in
        let week_later := today + 7 in
        let total_today :=
          List.length (filter (fun r => at_time (fun d => d =? today) (date r)) (rows df)) in
        let confirmed_today :=
          if has_column df "Status"
          then List.length (filter (fun r => at_time (fun d => d =? today) (date r)
                                             && String.eqb (status r) "Confirmed")
                                   (rows df))
          else 0%nat in
        let pending :=
          if has_column df "Status"
          then List.length (filter (fun r => String.eqb (status r) "Pending") (rows df))
          else 0%nat in
        let this_week :=
          List.length (filter (fun r => at_time (fun d => d >=? today) (date r)
                                        && at_time (fun d => d <=? week_later) (date r))
                              (rows df)) in
        mkBookingKpis total_today confirmed_today pending this_week
  end.

(** The result frame is its list of rows [(date, booking_count)]. *)
Definition get_monthly_booking_heatmap (df : option (DataFrame Appointment)) (now : Z)
    : list (Z * Z) :=
  match df with
  | None => []
  | Some df =>
      if empty df then []
      else
        let date r := safe_datetime_cell df "Appointment Date" appointment_date r in
        let df_month :=
          filter (fun r => at_time (fun d => Calendar.month d =? Calendar.month now) (date r)
                           && at_time (fun d => Calendar.year d =? Calendar.year now) (date r))
                 (rows df) in
        let days := dropna (map date df_month) in
        map (fun d => (d, count_day d days)) (sorted_keys Z.ltb days)
  end.

(** ** Notions of the specification

    What the specification says in its own words, to compare the code
    with. *)

Definition rows_of (table : option (list Appointment)) : list Appointment :=
  match table with
  | Some rows => rows
  | None => []
  end.

(** An existing appointment counts against a candidate when it is for the
    same employee and date, is confirmed or pending, and is not the excluded
    one. *)
Definition blocks (employee : string) (date : Z) (exclude_id : option string)
    (r : Appointment) : Prop :=
  preferred_employee r = employee /\
  appointment_date r = Some date /\
  (status r = "Confirmed" \/ status r = "Pending") /\
  given exclude_id <> Some (appointment_id r).

(** The interval of an appointment: its start in minutes from midnight and
    its length. *)
Definition interval_of (r : Appointment) (start len : Z) : Prop :=
  exists h m,
    Py.hour_minute (time_slot r) = Ok (h, m) /\ start = h * 60 + m /\
    duration r = Some len.

Definition half_open_overlap (candidateStart candidateEnd existingStart existingEnd : Z)
    : Prop :=
  candidateStart < existingEnd /\ candidateEnd > existingStart.

Definition conflict (table : option (list Appointment)) (employee : string)
    (date : Z) (start dur : Z) (exclude_id : option string) : Prop :=
  exists r s len,
    In r (rows_of table) /\ blocks employee date exclude_id r /\
    interval_of r s len /\ half_open_overlap start (start + dur) s (s + len).

(** Every row carries a duration. *)
Definition durations_present (table : option (list Appointment)) : Prop :=
  forall r, In r (rows_of table) -> duration r <> None.

(** A row whose time slot reads as hour and minute. *)
Definition well_timed (r : Appointment) : bool :=
  returns (Py.hour_minute (time_slot r)).

Definition time_slots_parse (table : option (list Appointment)) : Prop :=
  forall r, In r (rows_of table) -> well_timed r = true.

(** The interval test on one row, as a boolean. *)
Definition hits (req_start req_end : Z) (r : Appointment) : bool :=
  match Py.hour_minute (time_slot r), duration r with
  | Ok (h, m), Some len => (req_start <? h * 60 + m + len) && (req_end >? h * 60 + m)
  | _, _ => false
  end.

(** The 22 slots of the business day. *)
Definition business_slots : list string :=
  ["09:00"; "09:30"; "10:00"; "10:30"; "11:00"; "11:30"; "12:00"; "12:30";
   "13:00"; "13:30"; "14:00"; "14:30"; "15:00"; "15:30"; "16:00"; "16:30";
   "17:00"; "17:30"; "18:00"; "18:30"; "19:00"; "19:30"].

Definition is_free (c : res bool) : bool :=
  match c with
  | Ok false => true
  | _ => false
  end.

Definition no_bookings (table : option (list Appointment)) (employee : string)
    (date : Z) : Prop :=
  forall r, In r (rows_of table) ->
            ~ (preferred_employee r = employee /\ appointment_date r = Some date).

(** The five period sums, and the days each one selects as seen from
    [now]. *)
Inductive period : Set := Today | ThisWeek | ThisMonth | PreviousWeek | PreviousMonth.

Definition period_sum (p : period) : option (DataFrame Sale) -> Z -> res Q :=
  match p with
  | Today => today_sales
  | ThisWeek => weekly_service_sales
  | ThisMonth => monthly_service_sales
  | PreviousWeek => prev_week_service_sales
  | PreviousMonth => prev_month_service_sales
  end.





(** New and repeated clients as the specification words them: the distinct
    client identifiers of today's transactions, split by whether the
    identifier occurs in a transaction strictly before today. *)
Definition distinct_new_and_repeated (df : DataFrame Sale) (today : Z) : nat * nat :=
  let before := dropna (map Phone_Number
                  (filter (fun r => at_time (fun t => t <? today) (Timestamp r)) (rows df))) in
  let clients := unique (map (fun r => astype_str (Phone_Number r))
                   (filter (fun r => at_time (fun t => t =? today) (Timestamp r)) (rows df))) in
  (List.length (filter (fun c => negb (isin c before)) clients),
   List.length (filter (fun c => isin c before) clients)).


(** Strictly increasing for an order given as a boolean test. *)
Fixpoint ascending {A : Type} (ltb : A -> A -> bool) (l : list A) : Prop :=
  match l with
  | [] => True
  | x :: t => (forall y, In y t -> ltb x y = true) /\ ascending ltb t
  end.

(** An approved leave whose range of days holds [d]. *)
Definition covers (d : Z) (r : Leave) : bool :=
  approved r &&
  match From_Date r, To_Date r with
  | Some a, Some b => (a <=? d) && (d <=? b)
  | _, _ => false
  end.

(** ** Sample rows *)

Definition priya_0930 : Appointment :=
  mkAppointment "APT1000" "Priya" (Some 20760) "09:30" (Some 30) "Confirmed".

Definition priya_dotted : Appointment :=
  mkAppointment "APT1001" "Priya" (Some 20760) "9.30" (Some 30) "Confirmed".

Definition booking (id : string) : Appointment :=
  mkAppointment id "Priya" (Some 20760) "09:30" (Some 30) "Confirmed".

Definition sale (day : Z) (phone : string) (amount : option Q) : Sale :=
  mkSale (Some day) (Some phone) amount.

Definition service_columns : list string := ["Timestamp"; "Phone Number"; "Bill Amount"].

Definition attendance_columns : list string := ["Staff Name"; "Date"; "Status"].

Definition attended (name : string) (day : Z) (s : string) : Attendance :=
  mkAttendance (Some name) (Some day) (Some s).


Definition leave_columns : list string := ["Staff Name"; "From Date"; "To Date"; "Status"].

(** ** Notions for the further properties *)

(** The identifiers of a table that [save_booking] reads a number from, and
    the number it reads. *)
Definition apt_ids (ap : list Appointment) : list string :=
  filter (fun x => Py.startswith x "APT") (map appointment_id ap).

Definition apt_suffix (x : string) : res Z := Py.int (Py.replace_APT x).

(** Two rows that hold the same employee, on the same date, at overlapping
    times, both confirmed or pending. *)
Definition active (r : Appointment) : Prop :=
  status r = "Confirmed" \/ status r = "Pending".

Definition clash (r1 r2 : Appointment) : Prop :=
  active r1 /\ active r2 /\
  preferred_employee r1 = preferred_employee r2 /\
  (exists d, appointment_date r1 = Some d /\ appointment_date r2 = Some d) /\
  exists s1 len1 s2 len2,
    interval_of r1 s1 len1 /\ interval_of r2 s2 len2 /\
    half_open_overlap s1 (s1 + len1) s2 (s2 + len2).

(** No two rows of the table clash. *)
Fixpoint no_double_booking (l : list Appointment) : Prop :=
  match l with
  | [] => True
  | r :: t => (forall r', In r' t -> ~ clash r r') /\ no_double_booking t
  end.





(** The sum of the counts of a result frame. *)
Definition total_count (result : list (Z * Z)) : Z :=
  fold_right (fun row acc => snd row + acc) 0 result.

(** The number of days of a leave record that the calendar shows. *)
Definition leave_length (r : Leave) : Z :=
  if approved r then
    match From_Date r, To_Date r with
    | Some a, Some b => Z.max 0 (b - a + 1)
    | _, _ => 0
    end
  else 0.

Definition in_month (now : Z) (r : Appointment) : bool :=
  at_time (fun d => (Calendar.month d =? Calendar.month now)
                    && (Calendar.year d =? Calendar.year now)) (appointment_date r).

Definition appointment_columns : list string :=
  ["Appointment ID"; "Preferred Employee"; "Appointment Date"; "Time Slot";
   "Duration"; "Status"].

(** * Properties *)

(** ** Scheduling: the overlap test *)

Section Overlap.

Variables (employee : string) (date : Z) (exclude_id : option string).

Lemma confirmed_or_pending_iff (s : string) :
  confirmed_or_pending s = true <-> s = "Confirmed" \/ s = "Pending".
Proof.
  unfold confirmed_or_pending.
  rewrite orb_true_iff, !String.eqb_eq. tauto.
Qed.

Lemma same_date_iff (c : option Z) : same_date c date = true <-> c = Some date.
Proof.
  destruct c as [d|]; simpl.
  - rewrite Z.eqb_eq. split; congruence.
  - split; discriminate.
Qed.

Lemma select_rows_In (rows : list Appointment) (r : Appointment) :
  In r (select_rows rows employee date exclude_id) <->
  In r rows /\ blocks employee date exclude_id r.
Proof.
  unfold select_rows, blocks.
  destruct (given exclude_id) as [x|] eqn:G.
  - rewrite !filter_In, !andb_true_iff, negb_true_iff, String.eqb_neq,
      String.eqb_eq, same_date_iff, confirmed_or_pending_iff.
    split.
    + intros [[? [[? ?] ?]] ?]. repeat split; try assumption. congruence.
    + intros [? [? [? [? N]]]]. repeat split; try assumption.
      intros E. apply N. congruence.
  - rewrite filter_In, !andb_true_iff, String.eqb_eq, same_date_iff,
      confirmed_or_pending_iff.
    split.
    + intros [? [[? ?] ?]]. repeat split; try assumption. discriminate.
    + intros [? [? [? [? _]]]]. repeat split; assumption.
Qed.

Lemma select_rows_nil : select_rows [] employee date exclude_id = [].
Proof.
  unfold select_rows. destruct (given exclude_id); reflexivity.
Qed.

Lemma hits_iff (s e : Z) (r : Appointment) :
  hits s e r = true <->
  exists st len, interval_of r st len /\ half_open_overlap s e st (st + len).
Proof.
  unfold hits, interval_of, half_open_overlap. split.
  - destruct (Py.hour_minute (time_slot r)) as [[h m]|] eqn:P; try discriminate.
    destruct (duration r) as [len|] eqn:D; try discriminate.
    rewrite andb_true_iff, Z.gtb_ltb, !Z.ltb_lt. intros [? ?].
    exists (h * 60 + m), len. split; [ exists h, m; auto | lia ].
  - intros (st & len & (h & m & P & -> & D) & ? & ?).
    rewrite P, D, andb_true_iff, Z.gtb_ltb, !Z.ltb_lt. lia.
Qed.

Lemma scan_rows_hits (s e : Z) (l : list Appointment) :
  (forall r, In r l -> duration r <> None) ->
  App.scan_rows s e l = Ok (existsb (hits s e) l).
Proof.
  induction l as [|r l IH]; intros D; simpl; [ reflexivity | ].
  unfold hits at 1.
  destruct (Py.hour_minute (time_slot r)) as [[h m]|].
  - destruct (duration r) as [len|] eqn:E.
    + simpl. destruct ((s <? h * 60 + m + len) && (e >? h * 60 + m)); simpl.
      * reflexivity.
      * apply IH. intros; apply D; right; assumption.
    + exfalso. apply (D r); [ left; reflexivity | assumption ].
  - simpl. apply IH. intros; apply D; right; assumption.
Qed.

Lemma check_overlap_hits (table : option (list Appointment)) (slot : string)
    (h m dur : Z) :
  Py.hour_minute slot = Ok (h, m) ->
  durations_present table ->
  App.check_overlap table employee date slot dur exclude_id =
  Ok (existsb (hits (h * 60 + m) (h * 60 + m + dur))
              (select_rows (rows_of table) employee date exclude_id)).
Proof.
  intros P D. unfold App.check_overlap.
  destruct table as [[|r0 rows]|]; simpl rows_of;
    rewrite ?select_rows_nil; try reflexivity.
  destruct (select_rows (r0 :: rows) employee date exclude_id) as [|f fs] eqn:S;
    [ reflexivity | ].
  rewrite P. cbn [bind]. apply scan_rows_hits.
  intros r I. apply D. simpl rows_of.
  apply (select_rows_In (r0 :: rows) r). rewrite S. exact I.
Qed.

Lemma existsb_hits_conflict (table : option (list Appointment)) (start dur : Z) :
  existsb (hits start (start + dur))
          (select_rows (rows_of table) employee date exclude_id) = true <->
  conflict table employee date start dur exclude_id.
Proof.
  rewrite existsb_exists. unfold conflict. split.
  - intros (r & I & H). apply select_rows_In in I. destruct I as [I B].
    apply hits_iff in H. destruct H as (st & len & V & O).
    exists r, st, len. auto.
  - intros (r & st & len & I & B & V & O). exists r. split.
    + apply select_rows_In. auto.
    + apply hits_iff. exists st, len. auto.
Qed.

(** On rows whose time slots all parse the two loops do the same. *)
Lemma scan_rows_agree (s e : Z) (l : list Appointment) :
  (forall r, In r l -> well_timed r = true) ->
  BookingTab.scan_rows s e l = App.scan_rows s e l.
Proof.
  induction l as [|r l IH]; intros W; simpl; [ reflexivity | ].
  assert (Wr : well_timed r = true) by (apply W; left; reflexivity).
  unfold well_timed in Wr.
  destruct (Py.hour_minute (time_slot r)) as [[h m]|]; [ | discriminate ].
  simpl. destruct (int_of_cell (duration r)); simpl; [ | reflexivity ].
  rewrite IH; [ reflexivity | ]. intros; apply W; right; assumption.
Qed.

Lemma check_overlap_agree (table : option (list Appointment)) (slot : string)
    (dur : Z) :
  time_slots_parse table ->
  BookingTab.check_overlap (rows_of table) employee date slot dur exclude_id =
  App.check_overlap table employee date slot dur exclude_id.
Proof.
  intros W. unfold BookingTab.check_overlap, App.check_overlap.
  destruct table as [[|r0 rows]|]; simpl rows_of;
    rewrite ?select_rows_nil; try reflexivity.
  destruct (select_rows (r0 :: rows) employee date exclude_id) as [|f fs] eqn:S;
    [ reflexivity | ].
  destruct (Py.hour_minute slot) as [[h m]|]; cbn [bind]; [ | reflexivity ].
  apply scan_rows_agree. intros r I. apply W. simpl rows_of.
  apply (select_rows_In (r0 :: rows) r). rewrite S. exact I.
Qed.

End Overlap.

(** With a candidate that parses, [check_overlap] is the loop over the
    selected rows: the early returns agree with the loop on no row. *)
Lemma check_overlap_scan (table : option (list Appointment)) (employee : string)
    (date : Z) (slot : string) (h m dur : Z) (exclude_id : option string) :
  Py.hour_minute slot = Ok (h, m) ->
  App.check_overlap table employee date slot dur exclude_id =
  App.scan_rows (h * 60 + m) (h * 60 + m + dur)
                (select_rows (rows_of table) employee date exclude_id).
Proof.
  intros P. unfold App.check_overlap.
  destruct table as [[|r0 rows]|]; simpl rows_of;
    rewrite ?select_rows_nil; try reflexivity.
  destruct (select_rows (r0 :: rows) employee date exclude_id); [ reflexivity | ].
  rewrite P. reflexivity.
Qed.

Lemma check_overlap_no_bookings (table : option (list Appointment))
    (employee : string) (date : Z) (slot : string) (dur : Z) :
  no_bookings table employee date ->
  App.check_overlap table employee date slot dur None = Ok false.
Proof.
  intros N. unfold App.check_overlap.
  destruct table as [[|r0 rows]|]; try reflexivity.
  destruct (select_rows (r0 :: rows) employee date None) as [|f fs] eqn:S;
    [ reflexivity | exfalso ].
  assert (I : In f (select_rows (r0 :: rows) employee date None))
    by (rewrite S; left; reflexivity).
  apply select_rows_In in I. destruct I as [I (E & D & _)].
  apply (N f I). auto.
Qed.

(** A longer request overlaps whatever a shorter one does. *)
Lemma app_scan_rows_mono (s e1 e2 : Z) (l : list Appointment) :
  e1 <= e2 ->
  App.scan_rows s e1 l = Ok true -> App.scan_rows s e2 l = Ok true.
Proof.
  intros L. induction l as [|r l IH]; simpl; [ discriminate | ].
  destruct (Py.hour_minute (time_slot r)) as [[h m]|]; [ | exact IH ].
  destruct (duration r) as [len|]; simpl; [ | discriminate ].
  destruct (s <? h * 60 + m + len); simpl; [ | exact IH ].
  rewrite !Z.gtb_ltb.
  destruct (h * 60 + m <? e1) eqn:T1; destruct (h * 60 + m <? e2) eqn:T2;
    try reflexivity; try exact IH.
  apply Z.ltb_lt in T1. apply Z.ltb_ge in T2. lia.
Qed.

Lemma tab_scan_rows_mono (s e1 e2 : Z) (l : list Appointment) :
  e1 <= e2 ->
  BookingTab.scan_rows s e1 l = Ok true -> BookingTab.scan_rows s e2 l = Ok true.
Proof.
  intros L. induction l as [|r l IH]; simpl; [ discriminate | ].
  destruct (Py.hour_minute (time_slot r)) as [[h m]|]; simpl; [ | discriminate ].
  destruct (duration r) as [len|]; simpl; [ | discriminate ].
  destruct (s <? h * 60 + m + len); simpl; [ | exact IH ].
  rewrite !Z.gtb_ltb.
  destruct (h * 60 + m <? e1) eqn:T1; destruct (h * 60 + m <? e2) eqn:T2;
    try reflexivity; try exact IH.
  apply Z.ltb_lt in T1. apply Z.ltb_ge in T2. lia.
Qed.

Lemma app_check_overlap_mono (table : option (list Appointment)) (employee : string)
    (date : Z) (slot : string) (d1 d2 : Z) (exclude_id : option string) :
  d1 <= d2 ->
  App.check_overlap table employee date slot d1 exclude_id = Ok true ->
  App.check_overlap table employee date slot d2 exclude_id = Ok true.
Proof.
  intros L. unfold App.check_overlap.
  destruct table as [[|r0 rows]|]; try discriminate.
  destruct (select_rows (r0 :: rows) employee date exclude_id); try discriminate.
  destruct (Py.hour_minute slot) as [[h m]|]; cbn [bind]; [ | discriminate ].
  apply app_scan_rows_mono. lia.
Qed.

Lemma tab_check_overlap_mono (df : list Appointment) (employee : string)
    (date : Z) (slot : string) (d1 d2 : Z) (exclude_id : option string) :
  d1 <= d2 ->
  BookingTab.check_overlap df employee date slot d1 exclude_id = Ok true ->
  BookingTab.check_overlap df employee date slot d2 exclude_id = Ok true.
Proof.
  intros L. unfold BookingTab.check_overlap.
  destruct (select_rows df employee date exclude_id); try discriminate.
  destruct (Py.hour_minute slot) as [[h m]|]; cbn [bind]; [ | discriminate ].
  apply tab_scan_rows_mono. lia.
Qed.

(** ** Scheduling: the free slots *)

Lemma slot_labels_business : slot_labels = business_slots.
Proof. reflexivity. Qed.

Lemma business_slots_parse (slot : string) :
  In slot business_slots -> exists h m, Py.hour_minute slot = Ok (h, m).
Proof.
  assert (F : forallb (fun s => returns (Py.hour_minute s)) business_slots = true)
    by reflexivity.
  rewrite forallb_forall in F. intros I. specialize (F slot I).
  destruct (Py.hour_minute slot) as [[h m]|]; [ eauto | discriminate ].
Qed.

Lemma app_collect_free_filter (table : option (list Appointment))
    (employee : string) (date dur : Z) (slots : list string) :
  (forall slot, In slot slots ->
     returns (App.check_overlap table employee date slot dur None) = true) ->
  App.collect_free table employee date dur slots =
  Ok (filter (fun slot => is_free (App.check_overlap table employee date slot dur None))
             slots).
Proof.
  induction slots as [|slot slots IH]; intros R; simpl; [ reflexivity | ].
  rewrite IH by (intros; apply R; right; assumption).
  assert (Rs := R slot (or_introl eq_refl)).
  destruct (App.check_overlap table employee date slot dur None) as [[|]|];
    try discriminate; reflexivity.
Qed.

Lemma collect_free_agree (table : option (list Appointment)) (employee : string)
    (date dur : Z) (slots : list string) :
  time_slots_parse table ->
  BookingTab.collect_free (rows_of table) employee date dur slots =
  App.collect_free table employee date dur slots.
Proof.
  intros W. induction slots as [|slot slots IH]; simpl; [ reflexivity | ].
  rewrite check_overlap_agree by assumption. rewrite IH. reflexivity.
Qed.

Lemma app_check_overlap_returns (table : option (list Appointment))
    (employee : string) (date dur : Z) (slot : string) :
  durations_present table -> In slot business_slots ->
  returns (App.check_overlap table employee date slot dur None) = true.
Proof.
  intros D I. destruct (business_slots_parse slot I) as (h & m & P).
  rewrite (check_overlap_hits employee date None table slot h m dur P D).
  reflexivity.
Qed.

Lemma app_available_slots_filter (table : option (list Appointment))
    (employee : string) (date dur : Z) :
  durations_present table ->
  App.get_available_slots table employee date dur =
  Ok (filter (fun slot => is_free (App.check_overlap table employee date slot dur None))
             business_slots).
Proof.
  intros D. unfold App.get_available_slots. rewrite slot_labels_business.
  apply app_collect_free_filter. intros slot I.
  apply app_check_overlap_returns; assumption.
Qed.

Lemma filter_all {A : Type} (p : A -> bool) (l : list A) :
  (forall a, In a l -> p a = true) -> filter p l = l.
Proof.
  induction l as [|a l IH]; intros H; simpl; [ reflexivity | ].
  rewrite (H a (or_introl eq_refl)), IH; [ reflexivity | ].
  intros; apply H; right; assumption.
Qed.

Lemma app_available_slots_no_bookings (table : option (list Appointment))
    (employee : string) (date dur : Z) :
  no_bookings table employee date ->
  App.get_available_slots table employee date dur = Ok business_slots.
Proof.
  intros N. unfold App.get_available_slots. rewrite slot_labels_business.
  rewrite app_collect_free_filter.
  - rewrite filter_all; [ reflexivity | ].
    intros slot _. rewrite check_overlap_no_bookings by assumption. reflexivity.
  - intros slot _. rewrite check_overlap_no_bookings by assumption. reflexivity.
Qed.

(** C1.  With a candidate start that reads as [h:m] and a table whose rows
    carry a duration, [check_overlap] answers, and it answers [True] exactly
    when some existing appointment for the same employee and date, confirmed
    or pending and not the excluded one, has an interval [[s, s + len)] with
    [start < s + len] and [start + dur > s], where [start = 60 h + m].  The
    version of [booking_tab.py] gives the same answer on a table whose time
    slots all parse.  Appointments that only touch the candidate never make
    an overlap; an appointment with the candidate's own start and (positive)
    length always does. *)
Theorem check_overlap_half_open_test
    (table : option (list Appointment)) (employee : string) (date : Z)
    (slot : string) (h m dur : Z) (exclude_id : option string) :
  Py.hour_minute slot = Ok (h, m) ->
  durations_present table ->
  let start := h * 60 + m in
  let answer := App.check_overlap table employee date slot dur exclude_id in
  (answer = Ok true <-> conflict table employee date start dur exclude_id) /\
  (answer = Ok false <-> ~ conflict table employee date start dur exclude_id) /\
  (time_slots_parse table ->
   BookingTab.check_overlap (rows_of table) employee date slot dur exclude_id = answer) /\
  ((forall r s len,
      In r (rows_of table) -> blocks employee date exclude_id r ->
      interval_of r s len -> s + len = start \/ start + dur = s) ->
   answer = Ok false) /\
  (0 < dur ->
   (exists r, In r (rows_of table) /\ blocks employee date exclude_id r /\
              interval_of r start dur) ->
   answer = Ok true).
Proof.
  intros P D start answer.
  assert (A : answer = Ok (existsb (hits start (start + dur))
                (select_rows (rows_of table) employee date exclude_id)))
    by (apply check_overlap_hits; assumption).
  pose proof (existsb_hits_conflict employee date exclude_id table start dur) as C.
  assert (T : answer = Ok true <-> conflict table employee date start dur exclude_id).
  { rewrite A, <- C. split; [ congruence | intros ->; reflexivity ]. }
  assert (F : answer = Ok false <-> ~ conflict table employee date start dur exclude_id).
  { rewrite A, <- C.
    destruct (existsb _ _); split; try congruence; intros N; exfalso; auto. }
  repeat split; try apply T; try apply F.
  - intros W. apply check_overlap_agree. assumption.
  - intros Adj. apply F. intros (r & s & len & I & B & V & O1 & O2).
    destruct (Adj r s len I B V); lia.
  - intros Pos (r & I & B & V). apply T. exists r, start, dur.
    unfold half_open_overlap. repeat (split; [ assumption | ]). lia.
Qed.

Lemma check_overlap_half_open_test_witness :
  Py.hour_minute "09:00" = Ok (9, 0) /\
  durations_present (Some [priya_0930]) /\
  App.check_overlap (Some [priya_0930]) "Priya" 20760 "09:00" 30 None = Ok false /\
  BookingTab.check_overlap [priya_0930] "Priya" 20760 "09:00" 30 None = Ok false.
Proof.
  assert (P : Py.hour_minute "09:00" = Ok (9, 0)) by reflexivity.
  assert (D : durations_present (Some [priya_0930])).
  { intros r [<-|[]]. discriminate. }
  assert (W : time_slots_parse (Some [priya_0930])).
  { intros r [<-|[]]. reflexivity. }
  destruct (check_overlap_half_open_test (Some [priya_0930]) "Priya" 20760
              "09:00" 9 0 30 None P D) as (_ & _ & Agree & _ & _).
  split; [ exact P | split; [ exact D | split ] ].
  - reflexivity.
  - etransitivity; [ exact (Agree W) | reflexivity ].
Defined.

(** Adjacent slots: 09:00 for 30 minutes beside a booking at 09:30. *)
Example adjacent_slots_do_not_overlap :
  App.check_overlap (Some [priya_0930]) "Priya" 20760 "09:00" 30 None = Ok false /\
  App.check_overlap (Some [priya_0930]) "Priya" 20760 "10:00" 30 None = Ok false.
Proof. split; reflexivity. Qed.

(** The same slot again. *)
Example identical_slot_overlaps :
  App.check_overlap (Some [priya_0930]) "Priya" 20760 "09:30" 30 None = Ok true /\
  BookingTab.check_overlap [priya_0930] "Priya" 20760 "09:30" 30 None = Ok true.
Proof. split; reflexivity. Qed.

(** C2.  On a table whose rows carry a duration, [get_available_slots]
    returns the 22 labels 09:00, 09:30, ..., 19:30 without those for which
    [check_overlap] is not [False], in that order: a label is returned
    exactly when no appointment conflicts with it.  With no booking for the
    employee on the date all 22 are returned.  [booking_tab.py] returns the
    same list on a table whose time slots all parse. *)
Theorem get_available_slots_free_business_slots
    (table : option (list Appointment)) (employee : string) (date dur : Z) :
  durations_present table ->
  let free slot := is_free (App.check_overlap table employee date slot dur None) in
  App.get_available_slots table employee date dur = Ok (filter free business_slots) /\
  (forall slot,
     In slot (filter free business_slots) <->
     In slot business_slots /\
     exists h m, Py.hour_minute slot = Ok (h, m) /\
                 ~ conflict table employee date (h * 60 + m) dur None) /\
  List.length business_slots = 22%nat /\
  (no_bookings table employee date ->
   App.get_available_slots table employee date dur = Ok business_slots) /\
  (time_slots_parse table ->
   BookingTab.get_available_slots (rows_of table) employee date dur =
   App.get_available_slots table employee date dur).
Proof.
  intros D free. repeat split.
  - apply app_available_slots_filter. assumption.
  - apply filter_In in H. tauto.
  - apply filter_In in H. destruct H as [I Fr].
    destruct (business_slots_parse slot I) as (h & m & P).
    exists h, m. split; [ assumption | ].
    destruct (check_overlap_half_open_test table employee date slot h m dur None P D)
      as (_ & F & _).
    apply F. unfold free, is_free in Fr.
    destruct (App.check_overlap table employee date slot dur None) as [[|]|];
      try discriminate; reflexivity.
  - intros (I & h & m & P & N). apply filter_In. split; [ assumption | ].
    destruct (check_overlap_half_open_test table employee date slot h m dur None P D)
      as (_ & F & _).
    unfold free. apply F in N. simpl in N. rewrite N. reflexivity.
  - apply app_available_slots_no_bookings.
  - intros W. apply collect_free_agree. assumption.
Qed.

Lemma get_available_slots_free_business_slots_witness :
  durations_present (Some [priya_0930]) /\
  App.get_available_slots (Some [priya_0930]) "Priya" 20760 60 =
  Ok ["10:00"; "10:30"; "11:00"; "11:30"; "12:00"; "12:30";
      "13:00"; "13:30"; "14:00"; "14:30"; "15:00"; "15:30"; "16:00"; "16:30";
      "17:00"; "17:30"; "18:00"; "18:30"; "19:00"; "19:30"].
Proof.
  assert (D : durations_present (Some [priya_0930])).
  { intros r [<-|[]]. discriminate. }
  split; [ exact D | ].
  destruct (get_available_slots_free_business_slots (Some [priya_0930]) "Priya"
              20760 60 D) as (E & _).
  rewrite E. reflexivity.
Defined.

Lemma filter_incl_pointwise {A : Type} (p q : A -> bool) (l : list A) :
  (forall a, p a = true -> q a = true) -> incl (filter p l) (filter q l).
Proof.
  intros H a I. apply filter_In in I. apply filter_In. destruct I; auto.
Qed.

(** C10.  When [d1 <= d2], a candidate that overlaps for [d1] overlaps for
    [d2], in both versions; so on a table whose rows carry a duration every
    slot [get_available_slots] returns for [d2] it returns for [d1] too
    (and likewise in [booking_tab.py] where the time slots all parse). *)
Theorem availability_antitone_in_duration
    (table : option (list Appointment)) (employee : string) (date : Z)
    (d1 d2 : Z) :
  d1 <= d2 ->
  (forall slot exclude_id,
     App.check_overlap table employee date slot d1 exclude_id = Ok true ->
     App.check_overlap table employee date slot d2 exclude_id = Ok true) /\
  (forall slot exclude_id,
     BookingTab.check_overlap (rows_of table) employee date slot d1 exclude_id = Ok true ->
     BookingTab.check_overlap (rows_of table) employee date slot d2 exclude_id = Ok true) /\
  (durations_present table ->
   exists l1 l2,
     App.get_available_slots table employee date d1 = Ok l1 /\
     App.get_available_slots table employee date d2 = Ok l2 /\
     incl l2 l1 /\
     (time_slots_parse table ->
      BookingTab.get_available_slots (rows_of table) employee date d1 = Ok l1 /\
      BookingTab.get_available_slots (rows_of table) employee date d2 = Ok l2)).
Proof.
  intros L. split; [ | split ].
  - intros slot x. apply app_check_overlap_mono. assumption.
  - intros slot x. apply tab_check_overlap_mono. assumption.
  - intros D.
    exists (filter (fun slot => is_free (App.check_overlap table employee date slot d1 None))
                   business_slots),
           (filter (fun slot => is_free (App.check_overlap table employee date slot d2 None))
                   business_slots).
    rewrite !app_available_slots_filter by assumption.
    repeat split.
    + intros slot I. apply filter_In in I. destruct I as [I F2].
      apply filter_In. split; [ assumption | ].
      pose proof (app_check_overlap_returns table employee date d1 slot D I) as R1.
      pose proof (app_check_overlap_mono table employee date slot d1 d2 None L) as M.
      destruct (App.check_overlap table employee date slot d1 None) as [[|]|];
        try discriminate; [ | reflexivity ].
      rewrite M in F2 by reflexivity. discriminate.
    + unfold BookingTab.get_available_slots. rewrite collect_free_agree by assumption.
      apply app_available_slots_filter. assumption.
    + unfold BookingTab.get_available_slots. rewrite collect_free_agree by assumption.
      apply app_available_slots_filter. assumption.
Qed.

Lemma availability_antitone_in_duration_witness :
  30 <= 60 /\
  durations_present (Some [priya_0930]) /\
  exists l1 l2,
    App.get_available_slots (Some [priya_0930]) "Priya" 20760 30 = Ok l1 /\
    App.get_available_slots (Some [priya_0930]) "Priya" 20760 60 = Ok l2 /\
    incl l2 l1.
Proof.
  assert (L : 30 <= 60) by lia.
  assert (D : durations_present (Some [priya_0930])).
  { intros r [<-|[]]. discriminate. }
  split; [ exact L | split; [ exact D | ] ].
  destruct (availability_antitone_in_duration (Some [priya_0930]) "Priya" 20760
              30 60 L) as (_ & _ & H).
  destruct (H D) as (l1 & l2 & E1 & E2 & I & _).
  exists l1, l2. auto.
Defined.

(** ** Scheduling: rows whose time slot does not parse *)

Lemma filter_swap {A : Type} (p q : A -> bool) (l : list A) :
  filter p (filter q l) = filter q (filter p l).
Proof.
  induction l as [|a l IH]; simpl; [ reflexivity | ].
  destruct (p a) eqn:Pa; destruct (q a) eqn:Qa; simpl;
    rewrite ?Pa, ?Qa, IH; reflexivity.
Qed.

Lemma select_rows_filter (p : Appointment -> bool) (rows : list Appointment)
    (employee : string) (date : Z) (exclude_id : option string) :
  select_rows (filter p rows) employee date exclude_id =
  filter p (select_rows rows employee date exclude_id).
Proof.
  unfold select_rows. destruct (given exclude_id).
  - rewrite (filter_swap _ p rows), (filter_swap _ p). reflexivity.
  - apply filter_swap.
Qed.

Lemma app_scan_rows_well_timed (s e : Z) (l : list Appointment) :
  App.scan_rows s e (filter well_timed l) = App.scan_rows s e l.
Proof.
  induction l as [|r l IH]; simpl; [ reflexivity | ].
  unfold well_timed at 1.
  destruct (Py.hour_minute (time_slot r)) as [[h m]|] eqn:P; simpl.
  - rewrite P, IH. reflexivity.
  - exact IH.
Qed.

(** In [app.py] the rows whose time slot does not parse are skipped: with
    them or without them the answer is the same. *)
Lemma app_check_overlap_skips_malformed_rows
    (rows : list Appointment) (employee : string) (date : Z) (slot : string)
    (h m dur : Z) (exclude_id : option string) :
  Py.hour_minute slot = Ok (h, m) ->
  App.check_overlap (Some rows) employee date slot dur exclude_id =
  App.check_overlap (Some (filter well_timed rows)) employee date slot dur exclude_id.
Proof.
  intros P. rewrite !(check_overlap_scan _ _ _ _ h m _ _ P). simpl rows_of.
  rewrite select_rows_filter, app_scan_rows_well_timed. reflexivity.
Qed.

(** C5.  A booking for Priya whose time slot is written [9.30]: [app.py]
    skips the row, [booking_tab.py] raises on it, though without the row it
    answers [False]. *)
Theorem booking_tab_check_overlap_raises_on_malformed_row :
  well_timed priya_dotted = false /\
  BookingTab.check_overlap [priya_dotted] "Priya" 20760 "11:00" 30 None
    = Raise ValueError /\
  BookingTab.check_overlap (filter well_timed [priya_dotted]) "Priya" 20760 "11:00" 30 None
    = Ok false /\
  App.check_overlap (Some [priya_dotted]) "Priya" 20760 "11:00" 30 None = Ok false.
Proof. repeat split. Qed.

(** ** Booking ledger: the new identifier *)

Lemma fold_max_bound (l : list Z) (z : Z) :
  let m := fold_left Z.max l z in
  (m = z \/ In m l) /\ z <= m /\ (forall k, In k l -> k <= m).
Proof.
  revert z. induction l as [|a l IH]; intros z; simpl.
  - repeat split; [ left; reflexivity | lia | intros k [] ].
  - destruct (IH (Z.max z a)) as (M & B & U). repeat split.
    + destruct M as [M|M]; [ | right; right; exact M ].
      destruct (Z.max_spec z a) as [[_ E]|[_ E]].
      * right; left; congruence.
      * left; congruence.
    + lia.
    + intros k [<-|I]; [ lia | apply U; exact I ].
Qed.

Lemma max_int_greatest (l : list Z) (n : Z) :
  In n l -> (forall k, In k l -> k <= n) -> Py.max_int l = Ok n.
Proof.
  intros I U. destruct l as [|z l]; [ destruct I | ]. simpl. f_equal.
  destruct (fold_max_bound l z) as (M & B & G). simpl in M, B, G.
  assert (In (fold_left Z.max l z) (z :: l)) by (destruct M; [ left; auto | right; auto ]).
  assert (fold_left Z.max l z <= n) by (apply U; assumption).
  destruct I as [<-|I]; [ lia | specialize (G n I); lia ].
Qed.

Lemma collect_map_ok {A B : Type} (f : A -> res B) (l : list A) :
  (forall a, In a l -> returns (f a) = true) ->
  exists ks, Py.collect (map f l) = Ok ks /\
             (forall k, In k ks <-> exists a, In a l /\ f a = Ok k).
Proof.
  induction l as [|a l IH]; intros R; simpl.
  - exists []. split; [ reflexivity | ]. intros k; split; [ intros [] | intros (a & [] & _) ].
  - destruct IH as (ks & E & S); [ intros; apply R; right; assumption | ].
    pose proof (R a (or_introl eq_refl)) as Ra.
    destruct (f a) as [k0|] eqn:Fa; [ | discriminate ].
    exists (k0 :: ks). simpl. rewrite E. simpl. split; [ reflexivity | ].
    intros k; split.
    + intros [<-|I]; [ exists a; auto | ].
      apply S in I. destruct I as (a' & I & F). exists a'; auto.
    + intros (a' & [<-|I] & F); [ left; congruence | right ].
      apply S. exists a'; auto.
Qed.

Lemma collect_map_raise {A B : Type} (f : A -> res B) (l : list A) (a : A) :
  In a l -> returns (f a) = false -> returns (Py.collect (map f l)) = false.
Proof.
  induction l as [|b l IH]; intros I R; [ destruct I | ]. simpl.
  destruct (f b) as [k|] eqn:Fb; simpl; [ | reflexivity ].
  destruct I as [<-|I]; [ rewrite Fb in R; discriminate | ].
  specialize (IH I R). destruct (Py.collect (map f l)); [ discriminate | reflexivity ].
Qed.

(** The identifier [save_booking] of [app.py] generates: [APT1000] for an
    empty table, for a table with no identifier that starts with [APT], and
    when a suffix does not read as an integer; otherwise the greatest suffix
    plus one. *)
Lemma app_new_id_cases (ap : list Appointment) :
  let ids := filter (fun x => Py.startswith x "APT") (map appointment_id ap) in
  let suffix x := Py.int (Py.replace_APT x) in
  (ap = [] -> App.new_id ap = "APT1000") /\
  (ids = [] -> App.new_id ap = "APT1000") /\
  ((exists x, In x ids /\ returns (suffix x) = false) -> App.new_id ap = "APT1000") /\
  (forall x n,
     In x ids -> suffix x = Ok n ->
     (forall y, In y ids -> exists k, suffix y = Ok k /\ k <= n) ->
     App.new_id ap = "APT" ++ Py.str (n + 1)).
Proof.
  intros ids suffix. unfold App.new_id. fold ids. repeat split.
  - intros ->. reflexivity.
  - intros E. destruct ap; [ reflexivity | ]. rewrite E. reflexivity.
  - intros (x & I & R). destruct ap; [ reflexivity | ].
    pose proof (collect_map_raise suffix ids x I R) as C. fold suffix.
    destruct (Py.collect (map suffix ids)); [ discriminate | reflexivity ].
  - intros x n I S U. destruct ap as [|a ap']; [ destruct I | ].
    fold suffix.
    destruct (collect_map_ok suffix ids) as (ks & E & M).
    { intros y Iy. destruct (U y Iy) as (k & -> & _). reflexivity. }
    rewrite E. cbn [bind].
    rewrite (max_int_greatest ks n); [ reflexivity | | ].
    + apply M. exists x. auto.
    + intros k Ik. apply M in Ik. destruct Ik as (y & Iy & Sy).
      destruct (U y Iy) as (k' & Sy' & L). congruence.
Qed.

(** An empty table gives [APT1000]; [APT1000] to [APT1007] give [APT1008]. *)
Example app_save_booking_examples :
  fst (App.save_booking None (booking "")) = "APT1000" /\
  fst (App.save_booking (Some []) (booking "")) = "APT1000" /\
  fst (App.save_booking
         (Some (map booking ["APT1000"; "APT1001"; "APT1002"; "APT1003";
                             "APT1004"; "APT1005"; "APT1006"; "APT1007"]))
         (booking "")) = "APT1008" /\
  fst (App.save_booking (Some (map booking ["APT9999"; "APT10000"])) (booking ""))
    = "APT10001" /\
  fst (App.save_booking (Some (map booking ["APT1000"; "APT1001-B"])) (booking ""))
    = "APT1000".
Proof. repeat split. Qed.

(** C3.  [booking_tab.py] takes the greatest suffix as text, not as a
    number, and has no fallback: after [APT9999] and [APT10000] it issues
    [APT10000] a second time where [app.py] issues [APT10001], and on a
    suffix that is not a number it raises where [app.py] starts again at
    [APT1000].  On [APT1000] to [APT1007] both give [APT1008]. *)
Theorem booking_tab_save_booking_repeats_identifier :
  BookingTab.new_id (map booking ["APT9999"; "APT10000"]) = Ok "APT10000" /\
  App.new_id (map booking ["APT9999"; "APT10000"]) = "APT10001" /\
  BookingTab.new_id (map booking ["APT1000"; "APT1001-B"]) = Raise ValueError /\
  App.new_id (map booking ["APT1000"; "APT1001-B"]) = "APT1000" /\
  BookingTab.new_id (map booking ["APT1000"; "APT1001"; "APT1002"; "APT1003";
                                  "APT1004"; "APT1005"; "APT1006"; "APT1007"])
    = Ok "APT1008" /\
  BookingTab.new_id [] = Ok "APT1000".
Proof. repeat split. Qed.

(** ** Queries: missing tables and columns *)

(** The guarded queries answer their default on a missing table. *)
Lemma guarded_queries_default (now : Z) :
  (forall p, period_sum p None now = Ok 0%Q) /\
  new_and_repeated_clients None now = (0%nat, 0%nat) /\
  get_leave_calendar_data None = Ok [].
Proof.
  split; [ intros []; reflexivity | split; reflexivity ].
Qed.

(** C4.  [get_staff_attendance_stats] has no guard: on a missing table it
    raises [AttributeError], on a frame without columns [KeyError]; and
    [today_sales] raises [KeyError] on a frame that has [Timestamp] but no
    [Bill Amount]. *)
Theorem query_functions_raise :
  get_staff_attendance_stats None = Raise AttributeError /\
  get_staff_attendance_stats (Some (mkDataFrame [] [])) = Raise KeyError /\
  get_staff_attendance_stats
    (Some (mkDataFrame ["Staff Name"; "Status"] [attended "Priya" 20760 "Present"]))
    = Raise KeyError /\
  today_sales (Some (mkDataFrame ["Timestamp"; "Phone Number"]
                                 [sale 20760 "9876543210" (Some 500%Q)])) 20760
    = Raise KeyError.
Proof. repeat split. Qed.

(** ** Queries: new and repeated clients *)

(** Client X came yesterday and today, client Y only today. *)
Example repeated_and_new_client :
  new_and_repeated_clients
    (Some (mkDataFrame service_columns
             [sale 20759 "X" (Some 300%Q); sale 20760 "X" (Some 450%Q);
              sale 20760 "Y" (Some 200%Q)])) 20760 = (1%nat, 1%nat).
Proof. reflexivity. Qed.

(** C6.  Client Y has two transactions today and none before: the code
    returns two new clients, the count of transactions, where there is one
    distinct client. *)
Theorem new_and_repeated_clients_counts_transactions :
  let df := mkDataFrame service_columns
              [sale 20760 "Y" (Some 200%Q); sale 20760 "Y" (Some 350%Q)] in
  new_and_repeated_clients (Some df) 20760 = (2%nat, 0%nat) /\
  distinct_new_and_repeated df 20760 = (1%nat, 0%nat).
Proof. split; reflexivity. Qed.

(** ** Queries: period sums *)




Lemma has_column_not_nil {R : Type} (df : DataFrame R) (name : string) :
  has_column df name = true -> columns df <> [].
Proof.
  unfold has_column. intros H E. rewrite E in H. discriminate.
Qed.







(** Amounts 250.50, missing and 49.50 today: the sum is 300.0. *)
Example today_sales_sums_present_amounts :
  today_sales
    (Some (mkDataFrame service_columns
             [sale 20760 "X" (Some 250.5%Q); sale 20760 "Y" None;
              sale 20760 "Z" (Some 49.5%Q); sale 20759 "X" (Some 100%Q)])) 20760
  = Ok 300%Q.
Proof. reflexivity. Qed.

(** ** Group keys *)

Section SortedKeys.

Variable A : Type.
Variable ltb : A -> A -> bool.
Hypothesis ltb_irrefl : forall x, ltb x x = false.
Hypothesis ltb_trans : forall x y z, ltb x y = true -> ltb y z = true -> ltb x z = true.
Hypothesis ltb_total : forall x y, ltb x y = false -> ltb y x = false -> x = y.

Lemma insert_key_In (x y : A) (l : list A) :
  In y (insert_key ltb x l) <-> y = x \/ In y l.
Proof.
  induction l as [|a l IH]; simpl.
  - split; [ intros [E|[]]; left; auto | intros [E|[]]; left; auto ].
  - destruct (ltb x a) eqn:L1; simpl.
    + split; [ intros [E|I]; [ left; auto | right; exact I ]
             | intros [E|I]; [ left; auto | right; exact I ] ].
    + destruct (ltb a x) eqn:L2; simpl.
      * rewrite IH. tauto.
      * assert (x = a) by (apply ltb_total; assumption). subst a.
        split; [ intros I; right; exact I | intros [E|I]; [ left; auto | exact I ] ].
Qed.

Lemma sorted_keys_In (y : A) (l : list A) :
  In y (sorted_keys ltb l) <-> In y l.
Proof.
  induction l as [|a l IH]; simpl; [ tauto | ].
  rewrite insert_key_In, IH. split; intros [E|I]; auto.
Qed.

Lemma insert_key_ascending (x : A) (l : list A) :
  ascending ltb l -> ascending ltb (insert_key ltb x l).
Proof.
  induction l as [|a l IH]; simpl.
  - intros _. split; [ intros y [] | exact I ].
  - intros [Ha Hl]. destruct (ltb x a) eqn:L1.
    + simpl. split; [ | split; assumption ].
      intros y [<-|Iy]; [ assumption | ].
      apply (ltb_trans x a y); [ assumption | apply Ha; assumption ].
    + destruct (ltb a x) eqn:L2.
      * simpl. split; [ | apply IH; assumption ].
        intros y Iy. apply insert_key_In in Iy.
        destruct Iy as [->|Iy]; [ assumption | apply Ha; assumption ].
      * simpl. split; assumption.
Qed.

Lemma sorted_keys_ascending (l : list A) : ascending ltb (sorted_keys ltb l).
Proof.
  induction l as [|a l IH]; simpl; [ exact I | ].
  apply insert_key_ascending. exact IH.
Qed.


End SortedKeys.








Lemma Z_ltb_total (x y : Z) : (x <? y) = false -> (y <? x) = false -> x = y.
Proof. rewrite !Z.ltb_ge. lia. Qed.

Lemma Z_ltb_trans (x y z : Z) : (x <? y) = true -> (y <? z) = true -> (x <? z) = true.
Proof. rewrite !Z.ltb_lt. lia. Qed.

Lemma In_dropna_map {R B : Type} (f : R -> option B) (l : list R) (b : B) :
  In b (dropna (map f l)) <-> exists r, In r l /\ f r = Some b.
Proof.
  induction l as [|a l IH]; simpl.
  - split; [ intros [] | intros (r & [] & _) ].
  - destruct (f a) as [b0|] eqn:F; simpl; rewrite ?IH.
    + split.
      * intros [<-|(r & I & E)]; [ exists a; auto | exists r; auto ].
      * intros (r & [<-|I] & E); [ left; congruence | right; exists r; auto ].
    + split.
      * intros (r & I & E). exists r; auto.
      * intros (r & [<-|I] & E); [ congruence | exists r; auto ].
Qed.

(** ** Queries: attendance *)

(** [round2] is rounding to two decimals: a whole number of hundredths, at
    most half a hundredth away. *)
Lemma round_half_even_close (q : Q) :
  (Qabs (inject_Z (round_half_even q) - q) <= 1 # 2)%Q.
Proof.
  unfold round_half_even.
  pose proof (Qfloor_le q) as L. pose proof (Qlt_floor q) as U.
  rewrite inject_Z_plus in U. change (inject_Z 1) with 1%Q in U.
  apply Qabs_Qle_condition.
  destruct (Qcompare_spec (q - inject_Z (Qfloor q)) (1 # 2)) as [E|E|E].
  - destruct (Z.even (Qfloor q)); rewrite ?inject_Z_plus;
      change (inject_Z 1) with 1%Q; split; lra.
  - split; lra.
  - rewrite inject_Z_plus. change (inject_Z 1) with 1%Q. split; lra.
Qed.

Lemma round2_close (q : Q) :
  (Qabs (round2 q - q) <= 1 # 200)%Q /\
  exists z, (round2 q == inject_Z z / 100)%Q.
Proof.
  unfold round2. split.
  - rewrite Qred_correct.
    pose proof (round_half_even_close (q * 100)) as C.
    apply Qabs_Qle_condition in C. apply Qabs_Qle_condition.
    set (z := inject_Z (round_half_even (q * 100))) in *.
    unfold Qdiv. change (/ 100)%Q with (1 # 100)%Q. split; lra.
  - exists (round_half_even (q * 100)). apply Qred_correct.
Qed.






(** ** Queries: the leave calendar *)

Lemma count_day_app (d : Z) (l1 l2 : list Z) :
  count_day d (l1 ++ l2) = count_day d l1 + count_day d l2.
Proof.
  unfold count_day. rewrite filter_app, length_app. lia.
Qed.

Ltac comparisons_to_Prop :=
  repeat match goal with
         | H : (_ && _) = true |- _ => apply andb_true_iff in H; destruct H
         | H : (_ && _) = false |- _ => apply andb_false_iff in H; destruct H
         | H : (_ <=? _) = true |- _ => apply Z.leb_le in H
         | H : (_ <=? _) = false |- _ => apply Z.leb_gt in H
         | H : (_ <? _) = true |- _ => apply Z.ltb_lt in H
         | H : (_ <? _) = false |- _ => apply Z.ltb_ge in H
         | H : (_ =? _) = true |- _ => apply Z.eqb_eq in H
         | H : (_ =? _) = false |- _ => apply Z.eqb_neq in H
         end.

Lemma count_day_steps (d a : Z) (n : nat) :
  count_day d (map (fun i => a + Z.of_nat i) (seq 0 n)) =
  if (a <=? d) && (d <? a + Z.of_nat n) then 1 else 0.
Proof.
  induction n as [|n IH].
  - change (Z.of_nat 0) with 0.
    destruct ((a <=? d) && (d <? a + 0)) eqn:W; [ | reflexivity ].
    comparisons_to_Prop. lia.
  - rewrite seq_S, map_app, count_day_app, IH. cbn [map Nat.add].
    unfold count_day. cbn [filter]. rewrite Nat2Z.inj_succ.
    destruct ((a <=? d) && (d <? a + Z.of_nat n)) eqn:W1;
      destruct ((a <=? d) && (d <? a + Z.succ (Z.of_nat n))) eqn:W2;
      destruct (d =? a + Z.of_nat n) eqn:E;
      comparisons_to_Prop; cbn [List.length]; lia.
Qed.

Lemma count_day_range (d a b : Z) :
  count_day d (date_range a b) = if (a <=? d) && (d <=? b) then 1 else 0.
Proof.
  unfold date_range, Py.range. rewrite count_day_steps.
  destruct ((a <=? d) && (d <? a + Z.of_nat (Z.to_nat (b + 1 - a)))) eqn:W1;
    destruct ((a <=? d) && (d <=? b)) eqn:W2;
    comparisons_to_Prop; lia.
Qed.

Lemma count_day_absent (d : Z) (days : list Z) :
  ~ In d days -> count_day d days = 0.
Proof.
  intros N. unfold count_day.
  induction days as [|a days IH]; simpl; [ reflexivity | ].
  destruct (Z.eqb_spec d a) as [->|_]; [ exfalso; apply N; left; reflexivity | ].
  apply IH. intros I. apply N. right. exact I.
Qed.

Lemma count_day_present (d : Z) (days : list Z) :
  In d days -> 0 < count_day d days.
Proof.
  unfold count_day. induction days as [|a days IH]; simpl; [ intros [] | ].
  destruct (Z.eqb_spec d a) as [->|N]; simpl; [ lia | ].
  intros [E|I]; [ congruence | apply IH; exact I ].
Qed.

Section LeaveCalendar.

Variable df : DataFrame Leave.
Hypothesis has_from : has_column df "From Date" = true.
Hypothesis has_to : has_column df "To Date" = true.

Lemma count_day_leave_days (d : Z) (l : list Leave) :
  count_day d (map fst (leave_days df (filter approved l))) =
  Z.of_nat (List.length (filter (covers d) l)).
Proof.
  induction l as [|r l IH]; [ reflexivity | ].
  simpl filter. unfold covers at 1.
  destruct (approved r); cbn [andb]; [ | exact IH ].
  change (leave_days df (r :: filter approved l))
    with ((match safe_datetime_convert df "From Date" From_Date r,
                 safe_datetime_convert df "To Date" To_Date r with
           | Some a, Some b =>
               map (fun d => (d, if has_column df "Staff Name"
                                 then leave_staff r else None))
                   (date_range a b)
           | _, _ => []
           end) ++ leave_days df (filter approved l))%list.
  unfold safe_datetime_convert. rewrite has_from, has_to.
  rewrite map_app, count_day_app, IH.
  destruct (From_Date r) as [a|]; [ destruct (To_Date r) as [b|] | ];
    try reflexivity.
  rewrite map_map. cbn [fst]. rewrite map_id, count_day_range.
  destruct ((a <=? d) && (d <=? b)); cbn [List.length]; lia.
Qed.

Lemma leave_count_keys (f : Z -> Z) (keys : list Z) (d : Z) :
  leave_count (map (fun k => (k, f k)) keys) d =
  if existsb (Z.eqb d) keys then f d else 0.
Proof.
  unfold leave_count. induction keys as [|k keys IH]; simpl; [ reflexivity | ].
  rewrite (Z.eqb_sym k d).
  destruct (Z.eqb_spec d k) as [->|_]; simpl; [ reflexivity | exact IH ].
Qed.

Lemma leave_calendar_result :
  has_column df "Status" = true ->
  let days := map fst (leave_days df (filter approved (rows df))) in
  get_leave_calendar_data (Some df) =
  Ok (map (fun d => (d, count_day d days)) (sorted_keys Z.ltb days)).
Proof.
  intros S days. unfold get_leave_calendar_data. rewrite S.
  destruct df as [cols rws]. unfold empty. cbn [columns rows] in *.
  destruct cols; [ discriminate | ].
  destruct rws; reflexivity.
Qed.

End LeaveCalendar.

Ltac decide_comparisons :=
  repeat match goal with
         | |- context [?a =? ?b] =>
             first [ replace (a =? b) with true by (symmetry; apply Z.eqb_eq; lia)
                   | replace (a =? b) with false by (symmetry; apply Z.eqb_neq; lia) ]
         | |- context [?a <? ?b] =>
             first [ replace (a <? b) with true by (symmetry; apply Z.ltb_lt; lia)
                   | replace (a <? b) with false by (symmetry; apply Z.ltb_ge; lia) ]
         end.

Lemma filter_none {A : Type} (p : A -> bool) (l : list A) :
  (forall a, In a l -> p a = false) -> filter p l = [].
Proof.
  induction l as [|a l IH]; intros H; simpl; [ reflexivity | ].
  rewrite (H a (or_introl eq_refl)). apply IH.
  intros; apply H; right; assumption.
Qed.

Lemma date_range_three (D : Z) : date_range D (D + 2) = [D; D + 1; D + 2].
Proof.
  unfold date_range, Py.range.
  replace (D + 2 + 1 - D) with 3 by lia. simpl.
  rewrite Z.add_0_r. reflexivity.
Qed.

(** C9.  On a leave frame with its status and date columns,
    [get_leave_calendar_data] returns one row per day, in increasing order of
    days without repetition, for the days that lie in the range of some
    approved leave; the count of a day is the number of approved leave
    records whose range, both ends included, holds the day.  A single
    approved leave from D to D + 2 gives the three rows (D, 1), (D + 1, 1),
    (D + 2, 1); a frame without approved leave gives no row. *)
Theorem leave_calendar_counts_approved_days (df : DataFrame Leave) :
  has_column df "Status" = true ->
  has_column df "From Date" = true ->
  has_column df "To Date" = true ->
  exists result,
    get_leave_calendar_data (Some df) = Ok result /\
    (forall d, leave_count result d =
               Z.of_nat (List.length (filter (covers d) (rows df)))) /\
    (forall d n, In (d, n) result ->
                 0 < n /\ n = Z.of_nat (List.length (filter (covers d) (rows df)))) /\
    ascending Z.ltb (map fst result) /\
    (forall name D,
       rows df = [mkLeave name (Some D) (Some (D + 2)) (Some "Approved")] ->
       result = [(D, 1); (D + 1, 1); (D + 2, 1)]) /\
    ((forall r, In r (rows df) -> approved r = false) -> result = []).
Proof.
  intros S F T.
  set (days := map fst (leave_days df (filter approved (rows df)))).
  exists (map (fun d => (d, count_day d days)) (sorted_keys Z.ltb days)).
  assert (N : forall d, count_day d days =
                        Z.of_nat (List.length (filter (covers d) (rows df))))
    by (intros d; apply count_day_leave_days; assumption).
  assert (K : forall d, In d (sorted_keys Z.ltb days) <-> In d days)
    by (intros d; apply sorted_keys_In; exact Z_ltb_total).
  split; [ apply leave_calendar_result; assumption | ].
  split; [ | split; [ | split; [ | split ] ] ].
  - intros d. rewrite leave_count_keys, <- N.
    destruct (existsb (Z.eqb d) (sorted_keys Z.ltb days)) eqn:E; [ reflexivity | ].
    symmetry. apply count_day_absent. intros I. apply K in I.
    assert (X : existsb (Z.eqb d) (sorted_keys Z.ltb days) = true)
      by (apply existsb_exists; exists d; split; [ exact I | apply Z.eqb_refl ]).
    congruence.
  - intros d n I. apply in_map_iff in I. destruct I as (k & E & I).
    injection E as -> <-. rewrite <- N. split; [ | reflexivity ].
    apply count_day_present. apply K. exact I.
  - rewrite map_map. cbn [fst]. rewrite map_id.
    apply sorted_keys_ascending; [ exact Z_ltb_trans | exact Z_ltb_total ].
  - intros name D R. unfold days. rewrite R. simpl.
    unfold safe_datetime_convert. rewrite F, T. cbn [From_Date To_Date].
    rewrite date_range_three, app_nil_r, map_map. cbn [fst map].
    unfold sorted_keys.
    repeat (cbn [fold_right insert_key]; decide_comparisons).
    cbn [map]. unfold count_day.
    repeat (cbn [filter]; decide_comparisons).
    reflexivity.
  - intros A. unfold days. rewrite (filter_none approved (rows df) A).
    reflexivity.
Qed.

Lemma leave_calendar_counts_approved_days_witness :
  let df := mkDataFrame leave_columns
              [mkLeave (Some "Priya") (Some 20760) (Some 20762) (Some "Approved");
               mkLeave (Some "Sneha") (Some 20761) (Some 20761) (Some "Approved");
               mkLeave (Some "Ritu") (Some 20761) (Some 20769) (Some "Pending")] in
  has_column df "Status" = true /\
  has_column df "From Date" = true /\
  has_column df "To Date" = true /\
  get_leave_calendar_data (Some df) = Ok [(20760, 1); (20761, 2); (20762, 1)].
Proof.
  intros df. repeat (split; [ reflexivity | ]).
  destruct (leave_calendar_counts_approved_days df eq_refl eq_refl eq_refl)
    as (result & E & _).
  rewrite E. assert (C : get_leave_calendar_data (Some df)
    = Ok [(20760, 1); (20761, 2); (20762, 1)]) by reflexivity.
  rewrite E in C. exact C.
Defined.

(** ** Booking ledger: identifiers stay distinct *)

Lemma more_digits_step (c : ascii) (k acc : Z) (s : string) :
  Py.digit_val c = Some k -> Ascii.eqb c "_" = false ->
  Py.more_digits acc false (String c s) = Py.more_digits (10 * acc + k) false s.
Proof.
  intros D U. cbn [Py.more_digits]. rewrite U, D. reflexivity.
Qed.

Lemma more_digits_acc (d : Decimal.uint) (acc : positive) :
  Py.more_digits (Z.pos acc) false (NilEmpty.string_of_uint d) =
  Some (Z.pos (Pos.of_uint_acc d acc)).
Proof.
  revert acc. induction d; intros acc; cbn [NilEmpty.string_of_uint Pos.of_uint_acc];
    [ reflexivity | .. ];
    (erewrite more_digits_step; [ | vm_compute; reflexivity | reflexivity ]);
    rewrite <- IHd; f_equal; lia.
Qed.

Lemma more_digits_zero (d : Decimal.uint) :
  Py.more_digits 0 false (NilEmpty.string_of_uint d) = Some (Z.of_N (Pos.of_uint d)).
Proof.
  induction d; cbn [NilEmpty.string_of_uint Pos.of_uint]; [ reflexivity | .. ];
    (erewrite more_digits_step; [ | vm_compute; reflexivity | reflexivity ]);
    [ exact IHd | .. ]; apply more_digits_acc.
Qed.

Lemma unsigned_literal_uint (d : Decimal.uint) :
  d <> Decimal.Nil ->
  Py.unsigned_literal (NilEmpty.string_of_uint d) = Some (Z.of_uint d).
Proof.
  unfold Z.of_uint. destruct d; intros N; [ congruence | .. ];
    cbn [NilEmpty.string_of_uint Pos.of_uint]; unfold Py.unsigned_literal;
    [ change (Py.digit_val "0") with (Some 0); apply more_digits_zero | .. ];
    apply more_digits_acc.
Qed.

Lemma rstrip_uint (d : Decimal.uint) :
  Py.rstrip (NilEmpty.string_of_uint d) = NilEmpty.string_of_uint d.
Proof.
  induction d; cbn [NilEmpty.string_of_uint]; [ reflexivity | .. ];
    cbn [Py.rstrip]; rewrite IHd;
    destruct (NilEmpty.string_of_uint d); reflexivity.
Qed.

Lemma strip_uint (d : Decimal.uint) :
  Py.strip (NilEmpty.string_of_uint d) = NilEmpty.string_of_uint d.
Proof.
  unfold Py.strip.
  destruct d; try reflexivity; cbn [NilEmpty.string_of_uint Py.lstrip];
    match goal with |- Py.rstrip (if ?b then _ else _) = _ => change b with false end;
    cbv iota;
    match goal with
    | |- Py.rstrip (String ?c (NilEmpty.string_of_uint ?u)) = _ =>
        first [ exact (rstrip_uint (Decimal.D0 u)) | exact (rstrip_uint (Decimal.D1 u))
              | exact (rstrip_uint (Decimal.D2 u)) | exact (rstrip_uint (Decimal.D3 u))
              | exact (rstrip_uint (Decimal.D4 u)) | exact (rstrip_uint (Decimal.D5 u))
              | exact (rstrip_uint (Decimal.D6 u)) | exact (rstrip_uint (Decimal.D7 u))
              | exact (rstrip_uint (Decimal.D8 u)) | exact (rstrip_uint (Decimal.D9 u)) ]
    end.
Qed.

Lemma replace_APT_uint (d : Decimal.uint) :
  Py.replace_APT (NilEmpty.string_of_uint d) = NilEmpty.string_of_uint d.
Proof.
  induction d; cbn [NilEmpty.string_of_uint]; [ reflexivity | .. ];
    cbn [Py.replace_APT]; rewrite IHd; reflexivity.
Qed.

(** [int(str(n))] is [n]. *)
Lemma int_str (z : Z) : Py.int (Py.str z) = Ok z.
Proof.
  unfold Py.str, Py.int. destruct z as [|p|p]; [ reflexivity | | ].
  - cbn [Z.to_int NilZero.string_of_int].
    pose proof (DecimalPos.Unsigned.to_uint_nonnil p) as N.
    pose proof (DecimalPos.Unsigned.of_to p) as R.
    assert (E : NilZero.string_of_uint (Pos.to_uint p)
                = NilEmpty.string_of_uint (Pos.to_uint p))
      by (destruct (Pos.to_uint p); [ congruence | reflexivity .. ]).
    rewrite E, strip_uint.
    assert (U := unsigned_literal_uint (Pos.to_uint p) N).
    unfold Z.of_uint in U. rewrite R in U. cbn [Z.of_N] in U.
    destruct (Pos.to_uint p); [ congruence | .. ];
      cbn [NilEmpty.string_of_uint] in *; rewrite U; reflexivity.
  - cbn [Z.to_int NilZero.string_of_int].
    pose proof (DecimalPos.Unsigned.to_uint_nonnil p) as N.
    pose proof (DecimalPos.Unsigned.of_to p) as R.
    assert (E : NilZero.string_of_uint (Pos.to_uint p)
                = NilEmpty.string_of_uint (Pos.to_uint p))
      by (destruct (Pos.to_uint p); [ congruence | reflexivity .. ]).
    rewrite E.
    assert (S : Py.strip (String "-" (NilEmpty.string_of_uint (Pos.to_uint p)))
                = String "-" (NilEmpty.string_of_uint (Pos.to_uint p))).
    { unfold Py.strip. cbn [Py.lstrip].
      change (Py.is_space "-") with false. cbv iota.
      cbn [Py.rstrip]. rewrite rstrip_uint.
      destruct (Pos.to_uint p); [ congruence | reflexivity .. ]. }
    rewrite S.
    assert (U := unsigned_literal_uint (Pos.to_uint p) N).
    unfold Z.of_uint in U. rewrite R in U. cbn [Z.of_N] in U.
    rewrite U. reflexivity.
Qed.

Lemma replace_APT_str (z : Z) : Py.replace_APT (Py.str z) = Py.str z.
Proof.
  unfold Py.str. destruct z as [|p|p]; [ reflexivity | | ];
    cbn [Z.to_int NilZero.string_of_int].
  - pose proof (DecimalPos.Unsigned.to_uint_nonnil p) as N.
    pose proof (replace_APT_uint (Pos.to_uint p)) as R.
    destruct (Pos.to_uint p); [ congruence | exact R .. ].
  - pose proof (DecimalPos.Unsigned.to_uint_nonnil p) as N.
    pose proof (replace_APT_uint (Pos.to_uint p)) as R.
    destruct (Pos.to_uint p); [ congruence | .. ];
      cbn [NilZero.string_of_uint] in *; cbn [Py.replace_APT]; rewrite R; reflexivity.
Qed.

Lemma apt_suffix_new (n : Z) : apt_suffix ("APT" ++ Py.str n) = Ok n.
Proof.
  unfold apt_suffix. change (Py.replace_APT ("APT" ++ Py.str n))
    with (Py.replace_APT (Py.str n)).
  rewrite replace_APT_str. apply int_str.
Qed.

Lemma startswith_new (n : Z) : Py.startswith ("APT" ++ Py.str n) "APT" = true.
Proof.
  unfold Py.startswith. apply prefix_correct.
  generalize (Py.str n). intros s. simpl. destruct s; reflexivity.
Qed.

Lemma apt_ids_app (ap1 ap2 : list Appointment) :
  apt_ids (ap1 ++ ap2) = (apt_ids ap1 ++ apt_ids ap2)%list.
Proof. unfold apt_ids. rewrite map_app, filter_app. reflexivity. Qed.

Lemma apt_ids_In (ap : list Appointment) (x : string) :
  In x (apt_ids ap) <-> In x (map appointment_id ap) /\ Py.startswith x "APT" = true.
Proof. unfold apt_ids. rewrite filter_In. reflexivity. Qed.

(** Where every identifier that starts with [APT] carries a number, the new
    identifier is [APT] and a number greater than all of them. *)
Lemma app_new_id_value (ap : list Appointment) :
  (forall x, In x (apt_ids ap) -> returns (apt_suffix x) = true) ->
  exists n,
    App.new_id ap = "APT" ++ Py.str n /\
    (forall y, In y (apt_ids ap) -> exists k, apt_suffix y = Ok k /\ k < n) /\
    (apt_ids ap = [] -> n = 1000).
Proof.
  intros H. destruct (app_new_id_cases ap) as (_ & Nil & _ & Max).
  fold (apt_ids ap) in Nil, Max. fold apt_suffix in Max.
  destruct (apt_ids ap) as [|x0 ids] eqn:E.
  - exists 1000. rewrite Nil by reflexivity.
    split; [ reflexivity | split; [ intros y [] | reflexivity ] ].
  - destruct (collect_map_ok apt_suffix (x0 :: ids) H) as (ks & _ & M).
    assert (K0 : exists k0, apt_suffix x0 = Ok k0).
    { specialize (H x0 (or_introl eq_refl)).
      destruct (apt_suffix x0) as [k0|]; [ eauto | discriminate ]. }
    destruct K0 as (k0 & K0).
    assert (I0 : In k0 ks) by (apply M; exists x0; split; [ left; reflexivity | exact K0 ]).
    destruct ks as [|k1 ks']; [ destruct I0 | ].
    destruct (fold_max_bound ks' k1) as (Mem & Low & Up).
    set (m := fold_left Z.max ks' k1) in *.
    assert (Im : In m (k1 :: ks')) by (destruct Mem as [->|Mem]; [ left | right ]; auto).
    assert (Um : forall k, In k (k1 :: ks') -> k <= m).
    { intros k [Ek|Ik]; [ subst k; exact Low | apply Up; exact Ik ]. }
    apply M in Im. destruct Im as (xm & Ixm & Sxm).
    exists (m + 1). split; [ | split ].
    + apply (Max xm m Ixm Sxm). intros y Iy.
      specialize (H y Iy). destruct (apt_suffix y) as [k|] eqn:Sy; [ | discriminate ].
      exists k. split; [ exact Sy | ]. apply Um. apply M. exists y. auto.
    + intros y Iy.
      specialize (H y Iy). destruct (apt_suffix y) as [k|] eqn:Sy; [ | discriminate ].
      exists k. split; [ reflexivity | ].
      assert (k <= m) by (apply Um; apply M; exists y; auto). lia.
    + discriminate.
Qed.

(** X1.  After [save_booking] of [app.py] no two rows share an identifier
    that did not before: on a table where every identifier that starts with
    [APT] carries a number, the identifier it returns is not in the table,
    the table it saves is the old one with one row added, and that row
    carries the new identifier and the fields of the form. *)
Theorem save_booking_fresh_identifier
    (table : option (list Appointment)) (data : Appointment) :
  (forall x, In x (apt_ids (rows_of table)) -> returns (apt_suffix x) = true) ->
  let id := fst (App.save_booking table data) in
  let saved := snd (App.save_booking table data) in
  ~ In id (map appointment_id (rows_of table)) /\
  saved = (rows_of table ++
           [mkAppointment id (preferred_employee data) (appointment_date data)
                          (time_slot data) (duration data) (status data)])%list /\
  (NoDup (map appointment_id (rows_of table)) -> NoDup (map appointment_id saved)).
Proof.
  intros H id saved.
  assert (E : id = App.new_id (rows_of table)) by (destruct table; reflexivity).
  assert (S : saved = (rows_of table ++
           [mkAppointment id (preferred_employee data) (appointment_date data)
                          (time_slot data) (duration data) (status data)])%list)
    by (destruct table; reflexivity).
  assert (F : ~ In id (map appointment_id (rows_of table))).
  { destruct (app_new_id_value (rows_of table) H) as (n & N & Lt & _).
    rewrite E, N. intros I.
    assert (Ia : In ("APT" ++ Py.str n) (apt_ids (rows_of table)))
      by (apply apt_ids_In; split; [ exact I | apply startswith_new ]).
    destruct (Lt _ Ia) as (k & Sk & Lk). rewrite apt_suffix_new in Sk.
    injection Sk as <-. lia. }
  split; [ exact F | split; [ exact S | ] ].
  intros ND. rewrite S, map_app. cbn [map appointment_id].
  apply NoDup_app; [ exact ND | repeat constructor; intros [] | ].
  intros a Ia [<-|[]]. exact (F Ia).
Qed.

Lemma save_booking_fresh_identifier_witness :
  let table := Some (map booking ["APT1000"; "WALKIN-7"; "APT1003"]) in
  (forall x, In x (apt_ids (rows_of table)) -> returns (apt_suffix x) = true) /\
  fst (App.save_booking table (booking "")) = "APT1004" /\
  ~ In "APT1004" (map appointment_id (rows_of table)).
Proof.
  intros table.
  assert (H : forall x, In x (apt_ids (rows_of table)) -> returns (apt_suffix x) = true).
  { intros x [<-|[<-|[]]]; reflexivity. }
  split; [ exact H | split; [ reflexivity | ] ].
  exact (proj1 (save_booking_fresh_identifier table (booking "") H)).
Defined.

(** X2.  Bookings saved one after the other get consecutive numbers: on
    such a table, the identifier of the first is [APT] and some [n] (1000
    where no identifier starts with [APT]), and saving again on the saved
    table gives [APT] and [n + 1]. *)
Theorem save_booking_consecutive_identifiers
    (table : option (list Appointment)) (first second : Appointment) :
  (forall x, In x (apt_ids (rows_of table)) -> returns (apt_suffix x) = true) ->
  exists n,
    fst (App.save_booking table first) = "APT" ++ Py.str n /\
    fst (App.save_booking (Some (snd (App.save_booking table first))) second)
      = "APT" ++ Py.str (n + 1) /\
    (apt_ids (rows_of table) = [] -> n = 1000).
Proof.
  intros H.
  destruct (app_new_id_value (rows_of table) H) as (n & N & Lt & Z0).
  exists n.
  assert (E : fst (App.save_booking table first) = App.new_id (rows_of table))
    by (destruct table; reflexivity).
  assert (S : snd (App.save_booking table first) = (rows_of table ++
           [mkAppointment (App.new_id (rows_of table)) (preferred_employee first)
              (appointment_date first) (time_slot first) (duration first)
              (status first)])%list)
    by (destruct table; reflexivity).
  split; [ rewrite E; exact N | split; [ | exact Z0 ] ].
  rewrite S. cbn [App.save_booking fst]. rewrite N.
  set (saved := (rows_of table ++ _)%list).
  assert (Ids : apt_ids saved = (apt_ids (rows_of table) ++ [("APT" ++ Py.str n)%string])%list).
  { unfold saved. rewrite apt_ids_app. f_equal. unfold apt_ids.
    cbn [map appointment_id filter]. rewrite startswith_new. reflexivity. }
  destruct (app_new_id_cases saved) as (_ & _ & _ & Max).
  fold (apt_ids saved) in Max. fold apt_suffix in Max.
  apply (Max ("APT" ++ Py.str n) n).
  - rewrite Ids. apply in_or_app. right. left. reflexivity.
  - apply apt_suffix_new.
  - intros y Iy. rewrite Ids in Iy. apply in_app_or in Iy.
    destruct Iy as [Iy|[<-|[]]].
    + destruct (Lt y Iy) as (k & Sk & Lk). exists k. split; [ exact Sk | lia ].
    + exists n. split; [ apply apt_suffix_new | lia ].
Qed.

Lemma save_booking_consecutive_identifiers_witness :
  let table := Some (map booking ["APT1000"; "WALKIN-7"; "APT1003"]) in
  (forall x, In x (apt_ids (rows_of table)) -> returns (apt_suffix x) = true) /\
  exists n,
    fst (App.save_booking table (booking "")) = "APT" ++ Py.str n /\
    fst (App.save_booking (Some (snd (App.save_booking table (booking ""))))
                          (booking "")) = "APT" ++ Py.str (n + 1).
Proof.
  intros table.
  assert (H : forall x, In x (apt_ids (rows_of table)) -> returns (apt_suffix x) = true).
  { intros x [<-|[<-|[]]]; reflexivity. }
  split; [ exact H | ].
  destruct (save_booking_consecutive_identifiers table (booking "") (booking "") H)
    as (n & A & B & _).
  exists n. split; assumption.
Defined.

(** X3.  One identifier that starts with [APT] without a number after it
    sends [save_booking] back to [APT1000]; where the table already has
    [APT1000] the new row repeats it. *)
Theorem save_booking_fallback_repeats_APT1000
    (table : option (list Appointment)) (data : Appointment) :
  (exists x, In x (apt_ids (rows_of table)) /\ returns (apt_suffix x) = false) ->
  fst (App.save_booking table data) = "APT1000" /\
  (In "APT1000" (map appointment_id (rows_of table)) ->
   ~ NoDup (map appointment_id (snd (App.save_booking table data)))).
Proof.
  intros B.
  assert (E : fst (App.save_booking table data) = "APT1000").
  { destruct (app_new_id_cases (rows_of table)) as (_ & _ & Bad & _).
    destruct table; apply Bad; exact B. }
  split; [ exact E | ].
  intros I ND.
  assert (S : map appointment_id (snd (App.save_booking table data))
              = (map appointment_id (rows_of table) ++ ["APT1000"])%list).
  { rewrite <- E. destruct table; cbn [App.save_booking snd fst rows_of];
      rewrite map_app; reflexivity. }
  rewrite S in ND. apply NoDup_remove_2 in ND. rewrite app_nil_r in ND.
  exact (ND I).
Qed.

Lemma save_booking_fallback_repeats_APT1000_witness :
  let table := Some (map booking ["APT1000"; "APT1001-B"]) in
  (exists x, In x (apt_ids (rows_of table)) /\ returns (apt_suffix x) = false) /\
  fst (App.save_booking table (booking "")) = "APT1000".
Proof.
  intros table.
  assert (B : exists x, In x (apt_ids (rows_of table)) /\ returns (apt_suffix x) = false).
  { exists "APT1001-B". split; [ right; left; reflexivity | reflexivity ]. }
  split; [ exact B | ].
  exact (proj1 (save_booking_fallback_repeats_APT1000 table (booking "") B)).
Defined.

(** ** Scheduling: bookings made through the form *)

Lemma no_double_booking_add (l : list Appointment) (new : Appointment) :
  no_double_booking l -> (forall r, In r l -> ~ clash r new) ->
  no_double_booking (l ++ [new]).
Proof.
  induction l as [|a l IH]; simpl.
  - intros _ _. split; [ intros r' [] | exact I ].
  - intros [Ha Hl] N. split.
    + intros r' Ir. apply in_app_or in Ir. destruct Ir as [Ir|[<-|[]]].
      * apply Ha. exact Ir.
      * apply N. left. reflexivity.
    + apply IH; [ exact Hl | ]. intros r Ir. apply N. right. exact Ir.
Qed.

Lemma Ok_inj {A : Type} (a b : A) : Ok a = Ok b -> a = b.
Proof. intros H. injection H. auto. Qed.

Lemma available_slot_no_conflict (table : option (list Appointment))
    (employee : string) (date dur : Z) (slots : list string) (slot : string) :
  durations_present table ->
  App.get_available_slots table employee date dur = Ok slots ->
  In slot slots ->
  exists h m, Py.hour_minute slot = Ok (h, m) /\
              ~ conflict table employee date (h * 60 + m) dur None.
Proof.
  intros D G I. rewrite app_available_slots_filter in G by assumption.
  apply Ok_inj in G. subst slots. apply filter_In in I. destruct I as [I F].
  destruct (business_slots_parse slot I) as (h & m & P).
  exists h, m. split; [ exact P | ].
  rewrite (check_overlap_hits employee date None table slot h m dur P D) in F.
  intros C. apply existsb_hits_conflict in C. rewrite C in F. discriminate.
Qed.

(** X4.  A booking made the way the form of [app.py] makes it keeps the
    table free of double bookings: on a table whose rows carry a duration
    and in which no two rows clash, a row for the employee and date, at a
    slot [get_available_slots] returned for the duration, saved by
    [save_booking] as [Confirmed], gives a table in which no two rows
    clash. *)
Theorem booking_form_keeps_no_double_booking
    (table : option (list Appointment)) (employee : string) (date dur : Z)
    (slots : list string) (slot id : string) :
  durations_present table ->
  no_double_booking (rows_of table) ->
  App.get_available_slots table employee date dur = Ok slots ->
  In slot slots ->
  no_double_booking
    (snd (App.save_booking table
            (mkAppointment id employee (Some date) slot (Some dur) "Confirmed"))).
Proof.
  intros D ND G I.
  destruct (available_slot_no_conflict table employee date dur slots slot D G I)
    as (h & m & P & NC).
  assert (S : snd (App.save_booking table
            (mkAppointment id employee (Some date) slot (Some dur) "Confirmed"))
          = (rows_of table ++
             [mkAppointment (App.new_id (rows_of table)) employee (Some date) slot
                            (Some dur) "Confirmed"])%list)
    by (destruct table; reflexivity).
  rewrite S. apply no_double_booking_add; [ exact ND | ].
  intros r Ir (Ar & _ & Er & (d & Dr & Dn) & (s1 & l1 & s2 & l2 & V1 & V2 & O1 & O2)).
  cbn [preferred_employee appointment_date] in Er, Dn.
  injection Dn as <-.
  destruct V2 as (h2 & m2 & P2 & -> & L2).
  cbn [time_slot duration] in P2, L2. rewrite P in P2.
  injection P2 as <- <-. injection L2 as <-.
  apply NC. exists r, s1, l1. split; [ exact Ir | ]. split; [ | split ].
  - unfold blocks. repeat split; try assumption. discriminate.
  - exact V1.
  - unfold half_open_overlap. lia.
Qed.

Lemma booking_form_keeps_no_double_booking_witness :
  let table := Some [priya_0930] in
  durations_present table /\
  no_double_booking (rows_of table) /\
  In "10:00" business_slots /\
  no_double_booking
    (snd (App.save_booking table
            (mkAppointment "" "Priya" (Some 20760) "10:00" (Some 45) "Confirmed"))).
Proof.
  intros table.
  assert (D : durations_present table) by (intros r [<-|[]]; discriminate).
  assert (ND : no_double_booking (rows_of table))
    by (split; [ intros r' [] | exact I ]).
  split; [ exact D | split; [ exact ND | split ] ].
  - unfold business_slots. simpl. tauto.
  - apply (booking_form_keeps_no_double_booking table "Priya" 20760 45
             ["10:00"; "10:30"; "11:00"; "11:30"; "12:00"; "12:30";
              "13:00"; "13:30"; "14:00"; "14:30"; "15:00"; "15:30"; "16:00";
              "16:30"; "17:00"; "17:30"; "18:00"; "18:30"; "19:00"; "19:30"]
             "10:00" "" D ND); [ reflexivity | left; reflexivity ].
Defined.

(** ** Scheduling: cancelled bookings *)

Lemma select_rows_cancel (df : list Appointment) (id employee : string) (date : Z) :
  id <> "" ->
  select_rows (cancel_booking df id) employee date None =
  select_rows df employee date (Some id).
Proof.
  intros N. unfold select_rows.
  assert (G : given (Some id) = Some id) by (destruct id; [ congruence | reflexivity ]).
  rewrite G. cbn [given].
  induction df as [|r df IH]; [ reflexivity | ].
  cbn [cancel_booking map filter]. fold (cancel_booking df id). rewrite IH.
  destruct (String.eqb (appointment_id r) id) eqn:E.
  - cbn [with_status preferred_employee appointment_date status].
    replace (confirmed_or_pending "Cancelled") with false by reflexivity.
    rewrite andb_false_r.
    destruct (String.eqb (preferred_employee r) employee
              && same_date (appointment_date r) date
              && confirmed_or_pending (status r)); [ | reflexivity ].
    cbn [filter]. rewrite E. reflexivity.
  - destruct (String.eqb (preferred_employee r) employee
              && same_date (appointment_date r) date
              && confirmed_or_pending (status r)); [ | reflexivity ].
    cbn [filter]. rewrite E. reflexivity.
Qed.

(** X5.  Cancelling a booking frees what excluding its identifier frees:
    after [cancel_booking] with a non-empty identifier, [check_overlap]
    answers as it answered before with that identifier excluded, in both
    versions. *)
Theorem cancel_booking_frees_slot
    (df : list Appointment) (id employee : string) (date : Z) (slot : string)
    (dur : Z) :
  id <> "" ->
  BookingTab.check_overlap (cancel_booking df id) employee date slot dur None =
  BookingTab.check_overlap df employee date slot dur (Some id) /\
  App.check_overlap (Some (cancel_booking df id)) employee date slot dur None =
  App.check_overlap (Some df) employee date slot dur (Some id).
Proof.
  intros N. split.
  - unfold BookingTab.check_overlap. rewrite select_rows_cancel by assumption.
    reflexivity.
  - unfold App.check_overlap.
    destruct df as [|r df]; [ reflexivity | ].
    rewrite select_rows_cancel by assumption. reflexivity.
Qed.

Lemma cancel_booking_frees_slot_witness :
  "APT1000" <> "" /\
  App.check_overlap (Some [priya_0930]) "Priya" 20760 "09:30" 30 None = Ok true /\
  App.check_overlap (Some (cancel_booking [priya_0930] "APT1000"))
                    "Priya" 20760 "09:30" 30 None = Ok false.
Proof.
  assert (N : "APT1000" <> "") by discriminate.
  split; [ exact N | split; [ reflexivity | ] ].
  rewrite (proj2 (cancel_booking_frees_slot [priya_0930] "APT1000" "Priya" 20760
                    "09:30" 30 N)).
  reflexivity.
Defined.

(** X6.  [cancel_booking] deletes nothing: the table keeps its rows in
    order with their identifiers, every row with the identifier ends
    [Cancelled], every other row is unchanged, and cancelling twice is
    cancelling once. *)
Theorem cancel_booking_soft_delete (df : list Appointment) (id : string) :
  map appointment_id (cancel_booking df id) = map appointment_id df /\
  (forall r, In r (cancel_booking df id) -> appointment_id r = id ->
             status r = "Cancelled") /\
  (forall r, appointment_id r <> id -> (In r (cancel_booking df id) <-> In r df)) /\
  cancel_booking (cancel_booking df id) id = cancel_booking df id.
Proof.
  unfold cancel_booking. split; [ | split; [ | split ] ].
  - rewrite map_map. apply map_ext. intros r.
    destruct (String.eqb (appointment_id r) id); reflexivity.
  - intros r I E. apply in_map_iff in I. destruct I as (r0 & <- & _).
    destruct (String.eqb (appointment_id r0) id) eqn:B; [ reflexivity | ].
    apply String.eqb_neq in B. contradiction.
  - intros r N. split.
    + intros I. apply in_map_iff in I. destruct I as (r0 & E & I).
      destruct (String.eqb (appointment_id r0) id) eqn:B.
      * exfalso. apply N. rewrite <- E. cbn. apply String.eqb_eq. exact B.
      * congruence.
    + intros I. apply in_map_iff. exists r. split; [ | exact I ].
      apply String.eqb_neq in N. rewrite N. reflexivity.
  - rewrite map_map. apply map_ext. intros r.
    destruct (String.eqb (appointment_id r) id) eqn:B; cbn [with_status appointment_id];
      rewrite B; reflexivity.
Qed.

(** ** Queries: new and repeated clients, once more *)







(** ** Queries: period sums against each other *)




(** ** Queries: bounds of the attendance figures *)

Lemma round_half_even_between (q : Q) (lo hi : Z) :
  (inject_Z lo <= q)%Q -> (q <= inject_Z hi)%Q ->
  lo <= round_half_even q <= hi.
Proof.
  intros L H. unfold round_half_even.
  pose proof (Qfloor_le q) as FL. pose proof (Qlt_floor q) as FU.
  assert (Flo : lo <= Qfloor q).
  { rewrite <- (Qfloor_Z lo). apply Qfloor_resp_le. exact L. }
  assert (Fhi : Qfloor q <= hi).
  { rewrite <- (Qfloor_Z hi). apply Qfloor_resp_le. exact H. }
  assert (Up : (inject_Z (Qfloor q) < q)%Q -> Qfloor q + 1 <= hi).
  { intros S. assert (X : (inject_Z (Qfloor q) < inject_Z hi)%Q) by lra.
    rewrite <- Zlt_Qlt in X. lia. }
  destruct (Qcompare_spec (q - inject_Z (Qfloor q)) (1 # 2)) as [E|E|E].
  - destruct (Z.even (Qfloor q)); [ lia | ].
    split; [ lia | apply Up; lra ].
  - lia.
  - split; [ lia | apply Up; lra ].
Qed.

Lemma round2_between_0_100 (q : Q) :
  (0 <= q)%Q -> (q <= 100)%Q -> (0 <= round2 q)%Q /\ (round2 q <= 100)%Q.
Proof.
  intros L H. unfold round2. rewrite !Qred_correct.
  destruct (round_half_even_between (q * 100) 0 10000) as [A B].
  - change (inject_Z 0) with 0%Q. lra.
  - change (inject_Z 10000) with 10000%Q. lra.
  - rewrite Zle_Qle in A, B.
    change (inject_Z 0) with 0%Q in A. change (inject_Z 10000) with 10000%Q in B.
    unfold Qdiv. change (/ 100)%Q with (1 # 100)%Q. split; lra.
Qed.

Lemma count_present_le_count (cells : list (option string)) :
  0 <= count_present cells <= count cells.
Proof.
  unfold count_present, count. split; [ lia | ]. apply inj_le.
  induction cells as [|c cells IH]; simpl; [ lia | ].
  destruct c as [s|]; [ destruct (String.eqb s "Present") | ]; simpl; lia.
Qed.

Lemma percentage_between (present total : Z) :
  0 <= present <= total ->
  match percentage present total with
  | Some p => 0 < total /\ (0 <= p)%Q /\ (p <= 100)%Q
  | None => total = 0
  end.
Proof.
  intros [L H]. unfold percentage.
  destruct (Z.eqb_spec total 0) as [E|N]; [ exact E | ].
  assert (T : 0 < total) by lia. split; [ exact T | ].
  apply round2_between_0_100.
  - assert (X : (0 <= inject_Z present / inject_Z total)%Q).
    { apply Qle_shift_div_l.
      + change 0%Q with (inject_Z 0). rewrite <- Zlt_Qlt. exact T.
      + rewrite Qmult_0_l. change 0%Q with (inject_Z 0). rewrite <- Zle_Qle. exact L. }
    lra.
  - assert (X : (inject_Z present / inject_Z total <= 1)%Q).
    { apply Qle_shift_div_r.
      + change 0%Q with (inject_Z 0). rewrite <- Zlt_Qlt. exact T.
      + rewrite Qmult_1_l. rewrite <- Zle_Qle. exact H. }
    lra.
Qed.

(** X9.  On an attendance frame with its three columns, whatever the cells
    hold, every row [get_staff_attendance_stats] returns has
    [0 <= present_days <= total_days]; its percentage is missing exactly
    when [total_days] is 0 (no status recorded for the name) and otherwise
    lies between 0 and 100. *)
Theorem attendance_figures_bounded (df : DataFrame Attendance) :
  has_column df "Date" = true ->
  has_column df "Staff Name" = true ->
  has_column df "Status" = true ->
  exists result,
    get_staff_attendance_stats (Some df) = Ok result /\
    forall row, In row result ->
      0 <= present_days row <= total_days row /\
      match attendance_pct row with
      | Some p => 0 < total_days row /\ (0 <= p)%Q /\ (p <= 100)%Q
      | None => total_days row = 0
      end.
Proof.
  intros CD CN CS. unfold get_staff_attendance_stats, column.
  rewrite CD, CN, CS. cbn [bind]. eexists. split; [ reflexivity | ].
  intros row I. apply in_map_iff in I. destruct I as (name & <- & _).
  cbn [present_days total_days attendance_pct].
  pose proof (count_present_le_count
                (map Status (filter (in_group name) (rows df)))) as B.
  split; [ exact B | apply percentage_between; exact B ].
Qed.

Lemma attendance_figures_bounded_witness :
  let df := mkDataFrame attendance_columns
              [attended "A" 20760 "Present"; mkAttendance (Some "B") (Some 20760) None;
               attended "A" 20761 "Absent"; attended "A" 20762 "Present"] in
  has_column df "Date" = true /\
  has_column df "Staff Name" = true /\
  has_column df "Status" = true /\
  get_staff_attendance_stats (Some df) =
  Ok [mkAttendanceStats "A" 3 2 (Some 66.67%Q); mkAttendanceStats "B" 0 0 None].
Proof.
  intros df. repeat (split; [ reflexivity | ]).
  destruct (attendance_figures_bounded df eq_refl eq_refl eq_refl) as (result & E & _).
  rewrite E. assert (C : get_staff_attendance_stats (Some df) =
    Ok [mkAttendanceStats "A" 3 2 (Some 66.67%Q); mkAttendanceStats "B" 0 0 None])
    by reflexivity.
  rewrite E in C. exact C.
Defined.

(** ** Staff figures *)



Lemma filter_length_split {A : Type} (p q : A -> bool) (l : list A) :
  (forall a, In a l -> p a && q a = false) ->
  (List.length (filter p l) + List.length (filter q l))%nat
  = List.length (filter (fun a => p a || q a) l).
Proof.
  induction l as [|a l IH]; intros H; simpl; [ reflexivity | ].
  pose proof (H a (or_introl eq_refl)) as Ha.
  assert (IH' := IH (fun b I => H b (or_intror I))).
  destruct (p a); destruct (q a); simpl in *; try discriminate; lia.
Qed.













(** ** Booking figures *)

Lemma filter_length_mono {A : Type} (p q : A -> bool) (l : list A) :
  (forall a, p a = true -> q a = true) ->
  (List.length (filter p l) <= List.length (filter q l))%nat.
Proof.
  intros H. induction l as [|a l IH]; simpl; [ lia | ].
  specialize (H a). destruct (p a); [ rewrite H by reflexivity | destruct (q a) ];
    simpl; lia.
Qed.

(** X13.  The four booking figures of [get_booking_kpis] are consistent on
    every frame: confirmed today is at most total today, which is at most
    this week, which is at most the number of rows; and with the date column
    present, this week counts the rows dated from today to today plus seven
    days, both included. *)
Theorem booking_kpis_consistent (df : DataFrame Appointment) (now : Z) :
  let k := get_booking_kpis (Some df) now in
  (confirmed_today k <= total_today k)%nat /\
  (total_today k <= this_week k)%nat /\
  (this_week k <= List.length (rows df))%nat /\
  (pending k <= List.length (rows df))%nat /\
  (has_column df "Appointment Date" = true ->
   this_week k =
   List.length (filter (fun r => at_time (fun d => (now <=? d) && (d <=? now + 7))
                                         (appointment_date r)) (rows df))).
Proof.
  cbn zeta. unfold get_booking_kpis.
  destruct (empty df) eqn:E.
  - cbn [confirmed_today total_today this_week pending].
    split; [ lia | split; [ lia | split; [ lia | split; [ lia | ] ] ] ].
    intros C. unfold empty in E.
    pose proof (has_column_not_nil df "Appointment Date" C) as NC.
    destruct (columns df); [ congruence | ].
    destruct (rows df); [ reflexivity | discriminate ].
  - cbn [confirmed_today total_today this_week pending].
    split; [ | split; [ | split; [ | split ] ] ].
    + destruct (has_column df "Status"); [ | lia ].
      apply filter_length_mono. intros r H. apply andb_true_iff in H. tauto.
    + apply filter_length_mono. intros r.
      destruct (safe_datetime_cell df "Appointment Date" appointment_date r) as [d|];
        cbn [at_time]; [ | discriminate ].
      intros H. apply Z.eqb_eq in H. subst d. rewrite Z.geb_leb.
      apply andb_true_iff. split; [ apply Z.leb_refl | apply Z.leb_le; lia ].
    + apply filter_length_le.
    + destruct (has_column df "Status"); [ apply filter_length_le | lia ].
    + intros C. f_equal. apply filter_ext. intros r.
      unfold safe_datetime_cell. rewrite C.
      destruct (appointment_date r) as [d|]; cbn [at_time andb]; [ | reflexivity ].
      rewrite Z.geb_leb. reflexivity.
Qed.

(** ** Counts per day add up *)

Lemma count_day_cons (k a : Z) (l : list Z) :
  count_day k (a :: l) = (if k =? a then 1 else 0) + count_day k l.
Proof.
  unfold count_day. cbn [filter]. destruct (k =? a); cbn [List.length]; lia.
Qed.

Lemma ascending_not_in (a : Z) (t : list Z) :
  ascending Z.ltb (a :: t) -> existsb (Z.eqb a) t = false.
Proof.
  intros [H _]. destruct (existsb (Z.eqb a) t) eqn:E; [ | reflexivity ].
  apply existsb_exists in E. destruct E as (x & I & X).
  apply Z.eqb_eq in X. subst x. specialize (H a I). rewrite Z.ltb_irrefl in H.
  discriminate.
Qed.

Lemma total_count_cons (a : Z) (l K : list Z) :
  ascending Z.ltb K ->
  total_count (map (fun d => (d, count_day d (a :: l))) K) =
  total_count (map (fun d => (d, count_day d l)) K)
  + (if existsb (Z.eqb a) K then 1 else 0).
Proof.
  induction K as [|y t IH]; intros A; [ reflexivity | ].
  cbn [map total_count fold_right snd existsb].
  fold (total_count (map (fun d => (d, count_day d (a :: l))) t)).
  fold (total_count (map (fun d => (d, count_day d l)) t)).
  rewrite IH by (destruct A; assumption). rewrite count_day_cons.
  rewrite (Z.eqb_sym a y).
  destruct (Z.eqb_spec y a) as [->|N]; cbn [orb].
  - rewrite (ascending_not_in a t A). lia.
  - lia.
Qed.

Lemma total_count_insert (f : Z -> Z) (a : Z) (K : list Z) :
  ascending Z.ltb K ->
  total_count (map (fun d => (d, f d)) (insert_key Z.ltb a K)) =
  total_count (map (fun d => (d, f d)) K)
  + (if existsb (Z.eqb a) K then 0 else f a).
Proof.
  induction K as [|y t IH]; intros A.
  - cbn. lia.
  - cbn [insert_key existsb].
    destruct (Z.ltb_spec a y) as [L|G].
    + assert (X : existsb (Z.eqb a) (y :: t) = false).
      { destruct (existsb (Z.eqb a) (y :: t)) eqn:E; [ | reflexivity ].
        apply existsb_exists in E. destruct E as (x & [<-|I] & X).
        - apply Z.eqb_eq in X. lia.
        - apply Z.eqb_eq in X. subst x. destruct A as [Ay _].
          specialize (Ay a I). apply Z.ltb_lt in Ay. lia. }
      cbn [existsb] in X. rewrite X. cbn [map total_count fold_right snd]. lia.
    + destruct (Z.ltb_spec y a) as [L2|G2].
      * cbn [map total_count fold_right snd].
        fold (total_count (map (fun d => (d, f d)) (insert_key Z.ltb a t))).
        fold (total_count (map (fun d => (d, f d)) t)).
        rewrite IH by (destruct A; assumption).
        destruct (Z.eqb_spec a y); [ lia | ]. cbn [orb]. lia.
      * assert (a = y) by lia. subst y. rewrite Z.eqb_refl. cbn [orb]. lia.
Qed.

Lemma total_count_days (days : list Z) :
  total_count (map (fun d => (d, count_day d days)) (sorted_keys Z.ltb days))
  = Z.of_nat (List.length days).
Proof.
  induction days as [|a l IH]; [ reflexivity | ].
  cbn [sorted_keys fold_right]. fold (sorted_keys Z.ltb l).
  assert (A : ascending Z.ltb (sorted_keys Z.ltb l))
    by (apply sorted_keys_ascending; [ exact Z_ltb_trans | exact Z_ltb_total ]).
  rewrite total_count_insert by exact A.
  rewrite total_count_cons by exact A. rewrite IH, count_day_cons, Z.eqb_refl.
  destruct (existsb (Z.eqb a) (sorted_keys Z.ltb l)) eqn:E.
  - cbn [List.length]. lia.
  - rewrite count_day_absent.
    + cbn [List.length]. lia.
    + intros I. apply (sorted_keys_In Z Z.ltb Z_ltb_total) in I.
      assert (X : existsb (Z.eqb a) (sorted_keys Z.ltb l) = true)
        by (apply existsb_exists; exists a; split; [ exact I | apply Z.eqb_refl ]).
      congruence.
Qed.

Lemma length_dropna_all {R A : Type} (f : R -> option A) (l : list R) :
  (forall r, In r l -> f r <> None) ->
  List.length (dropna (map f l)) = List.length l.
Proof.
  induction l as [|r l IH]; intros H; [ reflexivity | ].
  cbn [map dropna]. destruct (f r) eqn:D.
  - cbn [List.length]. f_equal. apply IH. intros r0 I0. apply H. right. exact I0.
  - exfalso. apply (H r); [ left; reflexivity | exact D ].
Qed.

(** X14.  The booking heat map loses no booking and invents none: on a
    frame with its date column, the counts of [get_monthly_booking_heatmap]
    add up to the number of rows dated in the month of [now]; its days are
    in increasing order, each one the date of a row of that month, each
    count positive. *)
Theorem booking_heatmap_counts_add_up (df : DataFrame Appointment) (now : Z) :
  has_column df "Appointment Date" = true ->
  let result := get_monthly_booking_heatmap (Some df) now in
  total_count result = Z.of_nat (List.length (filter (in_month now) (rows df))) /\
  ascending Z.ltb (map fst result) /\
  (forall d n, In (d, n) result ->
     0 < n /\ exists r, In r (rows df) /\ in_month now r = true /\
                        appointment_date r = Some d).
Proof.
  intros C result.
  set (month_rows := filter (in_month now) (rows df)).
  set (days := dropna (map appointment_date month_rows)).
  assert (R : result = map (fun d => (d, count_day d days)) (sorted_keys Z.ltb days)).
  { unfold result, get_monthly_booking_heatmap, days, month_rows.
    assert (F : filter (fun r =>
        at_time (fun d => Calendar.month d =? Calendar.month now)
                (safe_datetime_cell df "Appointment Date" appointment_date r)
        && at_time (fun d => Calendar.year d =? Calendar.year now)
                (safe_datetime_cell df "Appointment Date" appointment_date r)) (rows df)
        = filter (in_month now) (rows df)).
    { apply filter_ext. intros r. unfold safe_datetime_cell, in_month. rewrite C.
      destruct (appointment_date r); reflexivity. }
    rewrite F.
    assert (M : map (fun r => safe_datetime_cell df "Appointment Date" appointment_date r)
                    (filter (in_month now) (rows df))
                = map appointment_date (filter (in_month now) (rows df))).
    { apply map_ext. intros r. unfold safe_datetime_cell. rewrite C. reflexivity. }
    rewrite M.
    destruct (empty df) eqn:E; [ | reflexivity ].
    unfold empty in E. pose proof (has_column_not_nil df "Appointment Date" C) as NC.
    destruct (columns df); [ congruence | ].
    destruct (rows df); [ reflexivity | discriminate ]. }
  assert (L : List.length days = List.length month_rows).
  { unfold days. apply length_dropna_all. intros r I.
    apply filter_In in I. destruct I as [_ I]. unfold in_month in I.
    destruct (appointment_date r); discriminate. }
  rewrite R. split; [ | split ].
  - rewrite total_count_days, L. reflexivity.
  - rewrite map_map. cbn [fst]. rewrite map_id.
    apply sorted_keys_ascending; [ exact Z_ltb_trans | exact Z_ltb_total ].
  - intros d n I. apply in_map_iff in I. destruct I as (k & E & I).
    injection E as -> <-.
    apply (proj1 (sorted_keys_In Z Z.ltb Z_ltb_total d days)) in I.
    split; [ apply count_day_present; exact I | ].
    unfold days in I. apply In_dropna_map in I. destruct I as (r & Ir & Dr).
    apply filter_In in Ir. destruct Ir as [Ir Mr]. exists r. auto.
Qed.

Lemma booking_heatmap_counts_add_up_witness :
  let df := mkDataFrame appointment_columns
              [mkAppointment "APT1000" "Priya" (Some 20760) "09:30" (Some 30) "Confirmed";
               mkAppointment "APT1001" "Sneha" (Some 20760) "10:00" (Some 45) "Pending";
               mkAppointment "APT1002" "Priya" (Some 20765) "09:30" (Some 30) "Cancelled";
               mkAppointment "APT1003" "Priya" (Some 20700) "09:30" (Some 30) "Completed"] in
  has_column df "Appointment Date" = true /\
  get_monthly_booking_heatmap (Some df) 20760 = [(20760, 2); (20765, 1)] /\
  total_count (get_monthly_booking_heatmap (Some df) 20760) = 3.
Proof.
  intros df. split; [ reflexivity | split; [ reflexivity | ] ].
  rewrite (proj1 (booking_heatmap_counts_add_up df 20760 eq_refl)). reflexivity.
Defined.

Lemma length_date_range (a b : Z) :
  Z.of_nat (List.length (date_range a b)) = Z.max 0 (b - a + 1).
Proof.
  unfold date_range, Py.range. rewrite length_map, length_seq. lia.
Qed.

(** X15.  The leave calendar shows every day of every approved leave: on a
    leave frame with its status and date columns the counts of
    [get_leave_calendar_data] add up to the lengths of the approved leave
    records, a record from [a] to [b] counting [b - a + 1] days, none where
    [b] is before [a] or a date is missing. *)
Theorem leave_calendar_counts_add_up (df : DataFrame Leave) :
  has_column df "Status" = true ->
  has_column df "From Date" = true ->
  has_column df "To Date" = true ->
  exists result,
    get_leave_calendar_data (Some df) = Ok result /\
    total_count result = fold_right (fun r acc => leave_length r + acc) 0 (rows df).
Proof.
  intros S F T. eexists. split; [ apply leave_calendar_result; assumption | ].
  rewrite total_count_days. rewrite length_map.
  induction (rows df) as [|r l IH]; [ reflexivity | ].
  cbn [filter fold_right]. unfold leave_length at 1.
  destruct (approved r); [ | rewrite IH; lia ].
  change (leave_days df (r :: filter approved l))
    with ((match safe_datetime_convert df "From Date" From_Date r,
                 safe_datetime_convert df "To Date" To_Date r with
           | Some a, Some b =>
               map (fun d => (d, if has_column df "Staff Name"
                                 then leave_staff r else None))
                   (date_range a b)
           | _, _ => []
           end) ++ leave_days df (filter approved l))%list.
  unfold safe_datetime_convert. rewrite F, T, length_app, Nat2Z.inj_add, IH.
  destruct (From_Date r) as [a|]; [ destruct (To_Date r) as [b|] | ];
    try reflexivity.
  rewrite length_map, length_date_range. reflexivity.
Qed.

Lemma leave_calendar_counts_add_up_witness :
  let df := mkDataFrame leave_columns
              [mkLeave (Some "Priya") (Some 20760) (Some 20762) (Some "Approved");
               mkLeave (Some "Sneha") (Some 20761) (Some 20761) (Some "Approved");
               mkLeave (Some "Ritu") (Some 20765) (Some 20763) (Some "Approved");
               mkLeave (Some "Ritu") (Some 20761) (Some 20769) (Some "Pending")] in
  has_column df "Status" = true /\
  has_column df "From Date" = true /\
  has_column df "To Date" = true /\
  exists result,
    get_leave_calendar_data (Some df) = Ok result /\ total_count result = 4.
Proof.
  intros df. repeat (split; [ reflexivity | ]).
  destruct (leave_calendar_counts_add_up df eq_refl eq_refl eq_refl)
    as (result & E & Tot).
  exists result. split; [ exact E | rewrite Tot; reflexivity ].
Defined.

(** ** Scheduling: booked, cancelled and edited slots *)

Lemma durations_present_saved (table : option (list Appointment))
    (id employee slot : string) (date dur : Z) :
  durations_present table ->
  durations_present
    (Some (snd (App.save_booking table
                  (mkAppointment id employee (Some date) slot (Some dur) "Confirmed")))).
Proof.
  intros D r I. cbn [rows_of] in I.
  assert (S : snd (App.save_booking table
            (mkAppointment id employee (Some date) slot (Some dur) "Confirmed"))
          = (rows_of table ++
             [mkAppointment (App.new_id (rows_of table)) employee (Some date) slot
                            (Some dur) "Confirmed"])%list)
    by (destruct table; reflexivity).
  rewrite S in I. apply in_app_or in I. destruct I as [I|[<-|[]]].
  - apply D. exact I.
  - discriminate.
Qed.

(** X16.  A slot just booked is no longer offered: after [save_booking] of
    a booking of positive length at a business slot, [get_available_slots]
    for the same employee and date, asked for any positive duration, returns
    a list without that slot. *)
Theorem booked_slot_is_taken
    (table : option (list Appointment)) (employee : string) (date dur dur' : Z)
    (slot id : string) :
  durations_present table ->
  In slot business_slots ->
  0 < dur -> 0 < dur' ->
  let saved := snd (App.save_booking table
                      (mkAppointment id employee (Some date) slot (Some dur) "Confirmed")) in
  exists slots,
    App.get_available_slots (Some saved) employee date dur' = Ok slots /\
    ~ In slot slots.
Proof.
  intros D B P P' saved.
  assert (D' : durations_present (Some saved)) by (apply durations_present_saved; exact D).
  eexists. split; [ apply app_available_slots_filter; exact D' | ].
  intros I. apply filter_In in I. destruct I as [_ F].
  destruct (business_slots_parse slot B) as (h & m & Ps).
  rewrite (check_overlap_hits employee date None (Some saved) slot h m dur' Ps D') in F.
  assert (C : conflict (Some saved) employee date (h * 60 + m) dur' None).
  { exists (mkAppointment (App.new_id (rows_of table)) employee (Some date) slot
                          (Some dur) "Confirmed"), (h * 60 + m), dur.
    split; [ | split; [ | split ] ].
    - cbn [rows_of]. unfold saved. destruct table; cbn [App.save_booking snd];
        apply in_or_app; right; left; reflexivity.
    - unfold blocks. cbn. repeat split; try reflexivity; [ left; reflexivity | discriminate ].
    - exists h, m. cbn [time_slot duration]. auto.
    - unfold half_open_overlap. lia. }
  apply existsb_hits_conflict in C. rewrite C in F. discriminate.
Qed.

Lemma booked_slot_is_taken_witness :
  durations_present (Some [priya_0930]) /\
  In "10:00" business_slots /\ 0 < 45 /\ 0 < 30 /\
  exists slots,
    App.get_available_slots
      (Some (snd (App.save_booking (Some [priya_0930])
                    (mkAppointment "" "Priya" (Some 20760) "10:00" (Some 45) "Confirmed"))))
      "Priya" 20760 30 = Ok slots /\
    ~ In "10:00" slots.
Proof.
  assert (D : durations_present (Some [priya_0930])) by (intros r [<-|[]]; discriminate).
  assert (B : In "10:00" business_slots) by (cbn; tauto).
  assert (P : 0 < 45) by lia. assert (P' : 0 < 30) by lia.
  split; [ exact D | split; [ exact B | split; [ exact P | split; [ exact P' | ] ] ] ].
  exact (booked_slot_is_taken (Some [priya_0930]) "Priya" 20760 45 30 "10:00" "" D B P P').
Defined.

Lemma cancel_booking_In (df : list Appointment) (id : string) (r : Appointment) :
  In r (cancel_booking df id) ->
  In r df \/ status r = "Cancelled".
Proof.
  unfold cancel_booking. intros I. apply in_map_iff in I. destruct I as (r0 & E & I).
  destruct (String.eqb (appointment_id r0) id).
  - right. rewrite <- E. reflexivity.
  - left. congruence.
Qed.

Lemma durations_present_cancel (df : list Appointment) (id : string) :
  durations_present (Some df) -> durations_present (Some (cancel_booking df id)).
Proof.
  intros D r I. cbn [rows_of] in I. unfold cancel_booking in I.
  apply in_map_iff in I. destruct I as (r0 & E & I).
  specialize (D r0 I).
  destruct (String.eqb (appointment_id r0) id); rewrite <- E; exact D.
Qed.

(** X17.  Cancelling takes no free slot away: on a table whose rows carry
    a duration, every slot [get_available_slots] returns before
    [cancel_booking] it returns after it, for every employee, date and
    duration. *)
Theorem cancel_booking_keeps_free_slots
    (df : list Appointment) (id employee : string) (date dur : Z) :
  durations_present (Some df) ->
  exists before after,
    App.get_available_slots (Some df) employee date dur = Ok before /\
    App.get_available_slots (Some (cancel_booking df id)) employee date dur = Ok after /\
    incl before after.
Proof.
  intros D. pose proof (durations_present_cancel df id D) as D'.
  do 2 eexists. split; [ apply app_available_slots_filter; exact D | ].
  split; [ apply app_available_slots_filter; exact D' | ].
  intros slot I. apply filter_In in I. destruct I as [B F].
  apply filter_In. split; [ exact B | ].
  destruct (business_slots_parse slot B) as (h & m & P).
  rewrite (check_overlap_hits employee date None _ slot h m dur P D) in F.
  rewrite (check_overlap_hits employee date None _ slot h m dur P D').
  destruct (existsb (hits (h * 60 + m) (h * 60 + m + dur))
              (select_rows (rows_of (Some (cancel_booking df id))) employee date None))
    eqn:E; [ | reflexivity ].
  apply existsb_exists in E. destruct E as (r & Ir & Hr).
  apply select_rows_In in Ir. destruct Ir as [Ir Br]. cbn [rows_of] in Ir.
  destruct (cancel_booking_In df id r Ir) as [Io|Cn].
  - assert (X : existsb (hits (h * 60 + m) (h * 60 + m + dur))
                  (select_rows (rows_of (Some df)) employee date None) = true).
    { apply existsb_exists. exists r. split; [ | exact Hr ].
      apply select_rows_In. split; [ exact Io | exact Br ]. }
    rewrite X in F. discriminate.
  - destruct Br as (_ & _ & [S|S] & _); rewrite Cn in S; discriminate.
Qed.

Lemma cancel_booking_keeps_free_slots_witness :
  durations_present (Some [priya_0930]) /\
  exists before after,
    App.get_available_slots (Some [priya_0930]) "Priya" 20760 30 = Ok before /\
    App.get_available_slots (Some (cancel_booking [priya_0930] "APT1000"))
                            "Priya" 20760 30 = Ok after /\
    incl before after /\ ~ In "09:30" before /\ In "09:30" after.
Proof.
  assert (D : durations_present (Some [priya_0930])) by (intros r [<-|[]]; discriminate).
  split; [ exact D | ].
  destruct (cancel_booking_keeps_free_slots [priya_0930] "APT1000" "Priya" 20760 30 D)
    as (before & after & E1 & E2 & I).
  exists before, after. repeat (split; [ assumption | ]).
  assert (C1 : App.get_available_slots (Some [priya_0930]) "Priya" 20760 30
    = Ok (filter (fun s => negb (String.eqb s "09:30")) business_slots)) by reflexivity.
  assert (C2 : App.get_available_slots (Some (cancel_booking [priya_0930] "APT1000"))
                 "Priya" 20760 30 = Ok business_slots) by reflexivity.
  rewrite E1 in C1. rewrite E2 in C2. apply Ok_inj in C1, C2. subst before after.
  split; [ | cbn; tauto ].
  intros X. apply filter_In in X. destruct X as [_ X]. discriminate.
Defined.

Lemma clash_sym (r1 r2 : Appointment) : clash r1 r2 -> clash r2 r1.
Proof.
  intros (A1 & A2 & E & (d & D1 & D2) & (s1 & l1 & s2 & l2 & V1 & V2 & O1 & O2)).
  repeat split; try assumption; [ congruence | exists d; auto | ].
  exists s2, l2, s1, l1. unfold half_open_overlap. repeat split; try assumption; lia.
Qed.

Lemma no_double_booking_pair (l : list Appointment) (r r' : Appointment) :
  no_double_booking l -> In r l -> In r' l -> r <> r' -> ~ clash r r'.
Proof.
  induction l as [|a l IH]; [ intros _ [] | ].
  intros [Ha Hl] [<-|I] [<-|I'] N.
  - congruence.
  - apply Ha. exact I'.
  - intros C. apply clash_sym in C. revert C. apply Ha. exact I.
  - apply IH; assumption.
Qed.

(** X18.  An existing booking can be checked again without tripping over
    itself: in a table whose rows carry a duration and in which no two rows
    clash, [check_overlap] for the employee, date, slot and duration of a
    confirmed or pending row, with that row's identifier excluded, answers
    [False]. *)
Theorem check_overlap_excluding_itself
    (rows : list Appointment) (r : Appointment) (date h m dur : Z) :
  durations_present (Some rows) ->
  no_double_booking rows ->
  In r rows ->
  active r ->
  appointment_id r <> "" ->
  appointment_date r = Some date ->
  Py.hour_minute (time_slot r) = Ok (h, m) ->
  duration r = Some dur ->
  App.check_overlap (Some rows) (preferred_employee r) date (time_slot r) dur
                    (Some (appointment_id r)) = Ok false.
Proof.
  intros D ND I A N Dt P Du.
  rewrite (check_overlap_hits (preferred_employee r) date (Some (appointment_id r))
             (Some rows) (time_slot r) h m dur P D).
  f_equal. destruct (existsb _ _) eqn:E; [ exfalso | reflexivity ].
  apply existsb_hits_conflict in E.
  destruct E as (r' & s & len & I' & (Be & Bd & Bs & Bx) & V & O).
  cbn [rows_of] in I'.
  assert (G : given (Some (appointment_id r)) = Some (appointment_id r))
    by (destruct (appointment_id r); [ congruence | reflexivity ]).
  rewrite G in Bx.
  assert (Ne : r <> r') by (intros <-; apply Bx; reflexivity).
  apply (no_double_booking_pair rows r r' ND I I' Ne).
  repeat split; try assumption; [ congruence | exists date; auto | ].
  exists (h * 60 + m), dur, s, len. repeat split; try assumption.
  - exists h, m. auto.
  - destruct O; assumption.
  - destruct O; assumption.
Qed.

Lemma check_overlap_excluding_itself_witness :
  durations_present (Some [priya_0930]) /\
  no_double_booking [priya_0930] /\
  In priya_0930 [priya_0930] /\
  active priya_0930 /\
  App.check_overlap (Some [priya_0930]) "Priya" 20760 "09:30" 30 (Some "APT1000")
    = Ok false /\
  App.check_overlap (Some [priya_0930]) "Priya" 20760 "09:30" 30 None = Ok true.
Proof.
  assert (D : durations_present (Some [priya_0930])) by (intros r [<-|[]]; discriminate).
  assert (ND : no_double_booking [priya_0930]) by (split; [ intros r' [] | exact I ]).
  assert (In0 : In priya_0930 [priya_0930]) by (left; reflexivity).
  assert (A : active priya_0930) by (left; reflexivity).
  split; [ exact D | split; [ exact ND | split; [ exact In0 | split; [ exact A | split ] ] ] ].
  - apply (check_overlap_excluding_itself [priya_0930] priya_0930 20760 9 30 30
             D ND In0 A); [ discriminate | reflexivity | reflexivity | reflexivity ].
  - reflexivity.
Defined.
